(** * Hoosat wallet background worker: request broker and approval channel

    A shallow embedding of [src/background/background.ts].  The worker is a
    single-threaded event loop: every handler runs to its next [await]
    without interleaving, so a handler is modelled as a resumable
    computation that mutates the worker's state and either finishes or
    suspends on a call to an external collaborator.  The two registries
    ([pendingRequests], [approvalResolvers]) are finite maps keyed by the
    request id. *)

From stdpp Require Import gmap strings list pretty.

Open Scope string_scope.
Open Scope list_scope.
Open Scope Z_scope.

(** ** JavaScript values

    [params], the collaborators' answers and the handlers' results are
    untyped ([any]) in the source; the tests the code makes on them
    (truthiness, [=== undefined], property reads) are those of JavaScript.
    Numbers are the integers and [NaN]: the worker only tests a number for
    truthiness, where any other number behaves as a non-zero integer. *)

#[local] Set Warnings "-register-all".

Inductive JSValue : Type :=
| JUndefined
| JNull
| JBool (b : bool)
| JNumber (n : Z)
| JNaN
| JString (s : string)
| JArray (items : list JSValue)
| JObject (fields : list (string * JSValue)).

(** ToBoolean: [undefined], [null], [false], [0], [NaN] and the empty
    string are falsy, everything else (objects and arrays included) is truthy. *)
Definition truthy (v : JSValue) : bool :=
  match v with
  | JUndefined | JNull | JNaN => false
  | JBool b => b
  | JNumber n => negb (Z.eqb n 0)
  | JString s => negb (String.eqb s "")
  | JArray _ | JObject _ => true
  end.

Definition is_undefined (v : JSValue) : bool :=
  match v with JUndefined => true | _ => false end.

Fixpoint assoc (name : string) (fields : list (string * JSValue)) : JSValue :=
  match fields with
  | [] => JUndefined
  | (k, v) :: rest => if String.eqb k name then v else assoc name rest
  end.

(** Property read [v.name] for the names this program reads ([address],
    [to], [amount], [message]): a [TypeError] ([None]) on [undefined] and
    [null], the field of an object, and [undefined] on every other value,
    none of whose prototypes defines these names. *)
Definition get_prop (v : JSValue) (name : string) : option JSValue :=
  match v with
  | JUndefined | JNull => None
  | JObject fields => Some (assoc name fields)
  | _ => Some JUndefined
  end.

(** ** Shared types ([../shared/types]) *)

(** Modelled from the spec: the enum [ErrorCode], whose declaration is not
    among the sources.  Its members are the four the worker uses, which
    are the error codes the spec lists as surfaced to callers. *)
Inductive ErrorCode : Type :=
| UNAUTHORIZED
| UNSUPPORTED_METHOD
| USER_REJECTED
| DISCONNECTED.

(** A string where a JavaScript value is expected is that string value. *)
Coercion JString : string >-> JSValue.

(** [{ code, message }], as [createRPCError] builds it.  The message is a
    string at every call but the one in the [catch] of
    [handleTransactionApproval], which passes on whatever [error.message]
    is. *)
Record RPCError : Type := mkRPCError { code : ErrorCode; message : JSValue }.

(** Modelled from the spec: the enum [RPCMethod], whose declaration is not
    among the sources: the five methods of the RPC payload, and
    [OTHER_METHOD] for any other value of [method], which takes the
    [default] branch of the dispatch. *)
Inductive RPCMethod : Type :=
| REQUEST_ACCOUNTS
| GET_ACCOUNTS
| GET_BALANCE
| SEND_TRANSACTION
| GET_NETWORK
| OTHER_METHOD (name : string).

(** The fields of the object literal both registering handlers build. *)
Record DAppRequest : Type := mkDAppRequest {
  req_id : string;
  req_origin : string;
  req_method : RPCMethod;
  req_params : JSValue;
  req_timestamp : Z
}.

(** What a [throw] or a rejection carries: an [RPCError] object, an
    [Error] made by the worker or a collaborator, a [TypeError] raised by
    the engine, or any other value a collaborator rejects with. *)
Inductive Thrown : Type :=
| ThrownRPC (e : RPCError)
| ThrownError (msg : string)
| ThrownTypeError (msg : string)
| ThrownValue (v : JSValue).

(** The read [error.message] in a [catch (error: any)]: the message of an
    error object, the [message] property of any other value, and [None]
    when the read itself throws a [TypeError] ([error] is [null] or
    [undefined]). *)
Definition error_message (e : Thrown) : option JSValue :=
  match e with
  | ThrownRPC e => Some (message e)
  | ThrownError msg => Some (JString msg)
  | ThrownTypeError msg => Some (JString msg)
  | ThrownValue v => get_prop v "message"
  end.

(** How a promise settles. *)
Inductive Outcome : Type :=
| Fulfilled (v : JSValue)
| Rejected (e : Thrown).

(** ** Host environment: timers and promises *)

(** [setTimeout] returns a positive integer handle, so a handle is truthy. *)
Definition TimerId : Type := positive.
Definition PromiseId : Type := nat.

(** The two closures the worker hands to [setTimeout]. *)
Inductive TimerCallback : Type :=
| LockWalletCb
| ApprovalTimeoutCb (requestId : string) (p : PromiseId).

Record Timer : Type := mkTimer { deadline : Z; callback : TimerCallback }.

(** Calls the worker makes without awaiting an answer. *)
Inductive HostCall : Type :=
| walletManager_lock
| sendMessage_WALLET_LOCKED.

(** ** The worker's state

    The module-level variables of the source ([isUnlocked],
    [sessionTimeout], [pendingRequests], [approvalResolvers]) together with
    the part of the host they act on: the clock, the live timers, the
    promises created by [waitForApproval], the log of the
    [resolve]/[reject] continuations that were invoked, and the log of
    fire-and-forget host calls.  The first [Date.now()] of a turn reads
    [clock]; a second one in the same turn reads [nowDrift] more, the time
    the host lets pass between the two reads (of either sign: the wall
    clock can be set back). *)
Record State : Type := mkState {
  isUnlocked : bool;
  sessionTimeout : option TimerId;
  pendingRequests : gmap string DAppRequest;
  approvalResolvers : gmap string PromiseId;
  clock : Z;
  timers : gmap TimerId Timer;
  nextTimer : TimerId;
  nextPromise : PromiseId;
  settlements : list (PromiseId * Outcome);
  hostCalls : list HostCall;
  nowDrift : Z
}.

Definition set_isUnlocked (b : bool) (st : State) : State :=
  mkState b (sessionTimeout st) (pendingRequests st) (approvalResolvers st)
    (clock st) (timers st) (nextTimer st) (nextPromise st)
    (settlements st) (hostCalls st) (nowDrift st).

Definition set_sessionTimeout (t : option TimerId) (st : State) : State :=
  mkState (isUnlocked st) t (pendingRequests st) (approvalResolvers st)
    (clock st) (timers st) (nextTimer st) (nextPromise st)
    (settlements st) (hostCalls st) (nowDrift st).

Definition set_pendingRequests (m : gmap string DAppRequest) (st : State) : State :=
  mkState (isUnlocked st) (sessionTimeout st) m (approvalResolvers st)
    (clock st) (timers st) (nextTimer st) (nextPromise st)
    (settlements st) (hostCalls st) (nowDrift st).

Definition set_approvalResolvers (m : gmap string PromiseId) (st : State) : State :=
  mkState (isUnlocked st) (sessionTimeout st) (pendingRequests st) m
    (clock st) (timers st) (nextTimer st) (nextPromise st)
    (settlements st) (hostCalls st) (nowDrift st).

Definition set_clock (t : Z) (st : State) : State :=
  mkState (isUnlocked st) (sessionTimeout st) (pendingRequests st) (approvalResolvers st)
    t (timers st) (nextTimer st) (nextPromise st)
    (settlements st) (hostCalls st) (nowDrift st).

Definition set_timers (m : gmap TimerId Timer) (st : State) : State :=
  mkState (isUnlocked st) (sessionTimeout st) (pendingRequests st) (approvalResolvers st)
    (clock st) m (nextTimer st) (nextPromise st)
    (settlements st) (hostCalls st) (nowDrift st).

Definition set_nextTimer (t : TimerId) (st : State) : State :=
  mkState (isUnlocked st) (sessionTimeout st) (pendingRequests st) (approvalResolvers st)
    (clock st) (timers st) t (nextPromise st)
    (settlements st) (hostCalls st) (nowDrift st).

Definition set_nextPromise (p : PromiseId) (st : State) : State :=
  mkState (isUnlocked st) (sessionTimeout st) (pendingRequests st) (approvalResolvers st)
    (clock st) (timers st) (nextTimer st) p
    (settlements st) (hostCalls st) (nowDrift st).

Definition set_settlements (l : list (PromiseId * Outcome)) (st : State) : State :=
  mkState (isUnlocked st) (sessionTimeout st) (pendingRequests st) (approvalResolvers st)
    (clock st) (timers st) (nextTimer st) (nextPromise st)
    l (hostCalls st) (nowDrift st).

Definition set_hostCalls (l : list HostCall) (st : State) : State :=
  mkState (isUnlocked st) (sessionTimeout st) (pendingRequests st) (approvalResolvers st)
    (clock st) (timers st) (nextTimer st) (nextPromise st)
    (settlements st) l (nowDrift st).

Definition set_nowDrift (ms : Z) (st : State) : State :=
  mkState (isUnlocked st) (sessionTimeout st) (pendingRequests st) (approvalResolvers st)
    (clock st) (timers st) (nextTimer st) (nextPromise st)
    (settlements st) (hostCalls st) ms.

(** The state at start-up: locked, no timer, both registries empty. *)
Definition initialState : State :=
  mkState false None ∅ ∅ 0 ∅ 1%positive 0%nat [] [] 0.

(** *** Host primitives *)

(** The second [Date.now()] of a turn. *)
Definition secondDateNow (st : State) : Z := clock st + nowDrift st.

(** [setTimeout(cb, delay)]: a fresh handle, due [delay] ms from now. *)
Definition setTimeout (cb : TimerCallback) (delay : Z) (st : State) : State * TimerId :=
  let t := nextTimer st in
  (set_nextTimer (Pos.succ t) (set_timers (<[t := mkTimer (clock st + delay) cb]> (timers st)) st), t).

(** [clearTimeout(t)]: cancels [t] if it is live, does nothing otherwise. *)
Definition clearTimeout (t : TimerId) (st : State) : State :=
  set_timers (delete t (timers st)) st.

(** [new Promise(...)]: a fresh promise; its id stands for its
    [{resolve, reject}] pair. *)
Definition newPromise (st : State) : State * PromiseId :=
  let p := nextPromise st in (set_nextPromise (S p) st, p).

(** Invoking [resolve(v)] or [reject(e)] of promise [p]. *)
Definition settle (p : PromiseId) (o : Outcome) (st : State) : State :=
  set_settlements (settlements st ++ [(p, o)]) st.

Definition hostCall (c : HostCall) (st : State) : State :=
  set_hostCalls (hostCalls st ++ [c]) st.

(** ** Session guard *)

Definition SESSION_TIMEOUT_MS : Z := 30 * 60 * 1000.

Definition resetSessionTimeout (st : State) : State :=
  let st1 := match sessionTimeout st with
             | Some t => clearTimeout t st
             | None => st
             end in
  let (st2, t) := setTimeout LockWalletCb SESSION_TIMEOUT_MS st1 in
  set_sessionTimeout (Some t) st2.

Definition lockWallet (st : State) : State :=
  hostCall sendMessage_WALLET_LOCKED (hostCall walletManager_lock (set_isUnlocked false st)).

(** ** Approval waiting mechanism *)

Definition createRPCError (c : ErrorCode) (msg : JSValue) : RPCError := mkRPCError c msg.

Definition waitForApproval (requestId : string) (timeout : Z) (st : State) : State * PromiseId :=
  let (st1, p) := newPromise st in
  let st2 := set_approvalResolvers (<[requestId := p]> (approvalResolvers st1)) st1 in
  let (st3, _) := setTimeout (ApprovalTimeoutCb requestId p) timeout st2 in
  (st3, p).

(** The closure [waitForApproval] passes to [setTimeout]: if the waiter
    registry has an entry under [requestId], it deletes the entry and
    rejects the promise the closure was created for. *)
Definition approvalTimeout (requestId : string) (p : PromiseId) (st : State) : State :=
  match approvalResolvers st !! requestId with
  | Some _ =>
      let st1 := set_approvalResolvers (delete requestId (approvalResolvers st)) st in
      settle p (Rejected (ThrownRPC (createRPCError USER_REJECTED "Request timeout"))) st1
  | None => st
  end.

Definition resolveApproval (requestId : string) (value : JSValue) (st : State) : State :=
  match approvalResolvers st !! requestId with
  | Some resolver =>
      let st1 := settle resolver (Fulfilled value) st in
      set_approvalResolvers (delete requestId (approvalResolvers st1)) st1
  | None => st
  end.

Definition rejectApproval (requestId : string) (error : Thrown) (st : State) : State :=
  match approvalResolvers st !! requestId with
  | Some resolver =>
      let st1 := settle resolver (Rejected error) st in
      set_approvalResolvers (delete requestId (approvalResolvers st1)) st1
  | None => st
  end.

(** A timer callback, run when its timer fires. *)
Definition runTimerCallback (cb : TimerCallback) (st : State) : State :=
  match cb with
  | LockWalletCb => lockWallet st
  | ApprovalTimeoutCb requestId p => approvalTimeout requestId p st
  end.

(** ** Asynchronous handlers

    An [async] function runs until its first [await], where it suspends on a
    call to an external collaborator; when the call settles, the rest of the
    body runs on the state of that later moment.  [ReturnPromise p] is
    [return waitForApproval(...)]: the caller stays suspended until [p] is
    settled. *)

(** Modelled from the spec: the collaborators the worker awaits
    ([../shared/storage], [./wallet-manager] and the [chrome] API), none of
    which is among the sources.  The worker sees of them only how each
    call settles, which the model leaves arbitrary. *)
Inductive ExtCall : Type :=
| isOriginConnected (origin : string)
| getCurrentWallet
| addConnectedSite (origin : string)
| walletManager_getBalance (address : JSValue)
| walletManager_sendTransaction (params : JSValue)
| walletManager_getNetwork
| chrome_storage_session_set (pendingRequestId : string)
| chrome_action_openPopup.

Inductive Async : Type :=
| Return (v : JSValue)
| Throw (e : Thrown)
| ReturnPromise (p : PromiseId)
| Await (c : ExtCall) (k : Outcome -> State -> State * Async).

Definition Coroutine : Type := State -> State * Async.

Definition ret (v : JSValue) : Coroutine := fun st => (st, Return v).
Definition throw (e : Thrown) : Coroutine := fun st => (st, Throw e).

(** [const x = await c; rest]: a rejection of [c] is thrown out of the
    function, there being no [try] around it. *)
Definition await (c : ExtCall) (rest : JSValue -> Coroutine) : Coroutine :=
  fun st => (st, Await c (fun r => match r with
                                   | Fulfilled v => rest v
                                   | Rejected e => throw e
                                   end)).

(** [try { const x = await c; ok } catch (error) { handler }] *)
Definition try_await (c : ExtCall) (ok : JSValue -> Coroutine) (handler : Thrown -> Coroutine)
  : Coroutine :=
  fun st => (st, Await c (fun r => match r with
                                   | Fulfilled v => ok v
                                   | Rejected e => handler e
                                   end)).

Notation "'let/await' x ':=' c 'in' rest" := (await c (fun x => rest))
  (at level 10, x name, c at level 100, rest at level 200, only parsing).

(** [wallet ? [wallet.address] : []] *)
Definition accountsOf (wallet : JSValue) : JSValue :=
  if truthy wallet
  then JArray [default JUndefined (get_prop wallet "address")]
  else JArray [].

(** [{ success: true }] *)
Definition successObject : JSValue := JObject [("success", JBool true)].

(** [await openPopupWithRequest(requestId); rest]: the helper stores the id
    in session storage and opens the popup; either call failing rejects the
    helper's promise, which the awaiting handler rethrows. *)
Definition openPopupWithRequest (requestId : string) (rest : Coroutine) : Coroutine :=
  let/await _ := chrome_storage_session_set requestId in
  let/await _ := chrome_action_openPopup in
  rest.

Definition APPROVAL_TIMEOUT_MS : Z := 5 * 60 * 1000.

(** A registration reads [Date.now()] twice in one turn: first for the id,
    then for the timestamp. *)
Definition handleRequestAccounts (origin : string) : Coroutine :=
  let/await isConnected := isOriginConnected origin in
  if truthy isConnected then
    let/await wallet := getCurrentWallet in
    ret (accountsOf wallet)
  else fun st =>
    let requestId := "connect_" +:+ pretty (clock st) in
    let request :=
      mkDAppRequest requestId origin REQUEST_ACCOUNTS (JObject []) (secondDateNow st) in
    let st1 := set_pendingRequests (<[requestId := request]> (pendingRequests st)) st in
    openPopupWithRequest requestId
      (fun st2 => let (st3, p) := waitForApproval requestId APPROVAL_TIMEOUT_MS st2 in
                  (st3, ReturnPromise p))
      st1.

Definition handleGetAccounts (origin : string) : Coroutine :=
  let/await isConnected := isOriginConnected origin in
  if negb (truthy isConnected) then ret (JArray [])
  else
    let/await wallet := getCurrentWallet in
    ret (accountsOf wallet).

Definition handleGetBalance (params : JSValue) : Coroutine :=
  match get_prop params "address" with
  | None => throw (ThrownTypeError "Cannot destructure property 'address'")
  | Some address =>
      if negb (truthy address) then
        throw (ThrownRPC (createRPCError UNSUPPORTED_METHOD "Address is required"))
      else
        let/await balance := walletManager_getBalance address in
        ret balance
  end.

(** [!params.to || params.amount === undefined]; [None] when a property
    read throws. *)
Definition invalidTransactionParams (params : JSValue) : option bool :=
  match get_prop params "to" with
  | None => None
  | Some to =>
      if negb (truthy to) then Some true
      else match get_prop params "amount" with
           | None => None
           | Some amount => Some (is_undefined amount)
           end
  end.

Definition handleSendTransaction (origin : string) (params : JSValue) : Coroutine :=
  let/await isConnected := isOriginConnected origin in
  if negb (truthy isConnected) then
    throw (ThrownRPC (createRPCError UNAUTHORIZED "Origin not connected"))
  else
    match invalidTransactionParams params with
    | None => throw (ThrownTypeError "Cannot read properties of undefined")
    | Some true =>
        throw (ThrownRPC (createRPCError UNSUPPORTED_METHOD "Invalid transaction params"))
    | Some false => fun st =>
        let requestId := "tx_" +:+ pretty (clock st) in
        let request :=
          mkDAppRequest requestId origin SEND_TRANSACTION params (secondDateNow st) in
        let st1 := set_pendingRequests (<[requestId := request]> (pendingRequests st)) st in
        openPopupWithRequest requestId
          (fun st2 => let (st3, p) := waitForApproval requestId APPROVAL_TIMEOUT_MS st2 in
                      (st3, ReturnPromise p))
          st1
    end.

Definition handleGetNetwork : Coroutine :=
  let/await network := walletManager_getNetwork in
  ret network.

(** ** Request broker *)

(** The sender of a message.  [sender_origin] is what
    [new URL(sender.url!).origin] evaluates to, [None] when the constructor
    throws (the url is absent or does not parse). *)
Record MessageSender : Type := mkSender { sender_origin : option string }.

Record RPCRequest : Type := mkRPCRequest { method : RPCMethod; params : JSValue }.

Definition is_GET_NETWORK (m : RPCMethod) : bool :=
  match m with GET_NETWORK => true | _ => false end.

(** The body of [handleRPCRequest] from the session check on: the spec's
    [dispatch(call, callerOrigin)]. *)
Definition dispatch (request : RPCRequest) (origin : string) : Coroutine :=
  fun st =>
    if negb (isUnlocked st) && negb (is_GET_NETWORK (method request)) then
      throw (ThrownRPC (createRPCError UNAUTHORIZED "Wallet is locked")) st
    else
      let st1 := resetSessionTimeout st in
      match method request with
      | REQUEST_ACCOUNTS => handleRequestAccounts origin st1
      | GET_ACCOUNTS => handleGetAccounts origin st1
      | GET_BALANCE => handleGetBalance (params request) st1
      | SEND_TRANSACTION => handleSendTransaction origin (params request) st1
      | GET_NETWORK => handleGetNetwork st1
      | OTHER_METHOD name =>
          throw (ThrownRPC (createRPCError UNSUPPORTED_METHOD ("Method not supported: " +:+ name))) st1
      end.

Definition handleRPCRequest (request : RPCRequest) (sender : MessageSender) : Coroutine :=
  match sender_origin sender with
  | None => throw (ThrownTypeError "Invalid URL")
  | Some origin => dispatch request origin
  end.

(** ** Approval channel *)

(** [pendingRequests.delete(requestId); return { success: true }] *)
Definition deletePendingAndReturn (requestId : string) : Coroutine :=
  fun st => (set_pendingRequests (delete requestId (pendingRequests st)) st, Return successObject).

Definition handleConnectionApproval (requestId : string) (approved : bool) : Coroutine :=
  fun st =>
    match pendingRequests st !! requestId with
    | None => throw (ThrownError "Request not found") st
    | Some request =>
        if approved then
          (let/await _ := addConnectedSite (req_origin request) in
           let/await wallet := getCurrentWallet in
           fun st' => deletePendingAndReturn requestId
                        (resolveApproval requestId (accountsOf wallet) st')) st
        else
          deletePendingAndReturn requestId
            (rejectApproval requestId
               (ThrownRPC (createRPCError USER_REJECTED "User rejected connection")) st)
    end.

Definition handleTransactionApproval (requestId : string) (approved : bool) : Coroutine :=
  fun st =>
    match pendingRequests st !! requestId with
    | None => throw (ThrownError "Request not found") st
    | Some request =>
        if approved then
          try_await (walletManager_sendTransaction (req_params request))
            (fun txId st' => deletePendingAndReturn requestId (resolveApproval requestId txId st'))
            (fun error st' =>
               match error_message error with
               | Some msg =>
                   deletePendingAndReturn requestId
                     (rejectApproval requestId
                        (ThrownRPC (createRPCError DISCONNECTED msg)) st')
               | None => throw (ThrownTypeError "Cannot read properties of null") st'
               end)
            st
        else
          deletePendingAndReturn requestId
            (rejectApproval requestId
               (ThrownRPC (createRPCError USER_REJECTED "User rejected transaction")) st)
    end.

(** ** Message envelope *)

(** Modelled from the spec: [ExtensionMessage] and the enum [MessageType],
    whose declarations are not among the sources: a message is its type
    with the part of [data] the handler reads, and [OTHER_MESSAGE] is any
    type [handleMessage] has no case for. *)
Inductive ExtensionMessage : Type :=
| RPC_REQUEST (data : RPCRequest)
| WALLET_UNLOCKED
| TRANSACTION_APPROVED (requestId : string)
| TRANSACTION_REJECTED (requestId : string)
| CONNECTION_APPROVED (requestId : string)
| CONNECTION_REJECTED (requestId : string)
| OTHER_MESSAGE (type : string).

Definition handleMessage (msg : ExtensionMessage) (sender : MessageSender) : Coroutine :=
  match msg with
  | RPC_REQUEST data => handleRPCRequest data sender
  | WALLET_UNLOCKED =>
      fun st => (resetSessionTimeout (set_isUnlocked true st), Return successObject)
  | TRANSACTION_APPROVED requestId => handleTransactionApproval requestId true
  | TRANSACTION_REJECTED requestId => handleTransactionApproval requestId false
  | CONNECTION_APPROVED requestId => handleConnectionApproval requestId true
  | CONNECTION_REJECTED requestId => handleConnectionApproval requestId false
  | OTHER_MESSAGE type => throw (ThrownError ("Unknown message type: " +:+ type))
  end.

(** [sendResponse]'s argument, as the [onMessage] listener builds it;
    [None] when the listener's [catch] callback throws on reading
    [error.message], so that [sendResponse] is not called. *)
Inductive Response : Type :=
| ResponseSuccess (data : JSValue)
| ResponseFailure (error : JSValue).

Definition envelope (o : Outcome) : option Response :=
  match o with
  | Fulfilled v => Some (ResponseSuccess v)
  | Rejected e => ResponseFailure <$> error_message e
  end.

(** ** The event loop

    The worker as the host drives it: a message arrives and its handler runs
    to its first suspension; an awaited collaborator call settles and the
    suspended handler resumes; a due timer fires; time passes; the host
    fixes how far apart two reads of [Date.now()] in one turn are.  A handler
    that has finished has its outcome handed to [sendResponse]; one that
    returned the approval promise is answered when that promise is settled. *)

Definition TaskId : Type := nat.

Record World : Type := mkWorld {
  state : State;
  tasks : list (TaskId * Async);
  nextTask : TaskId;
  responses : list (TaskId * Outcome)
}.

Definition initialWorld : World := mkWorld initialState [] 0%nat [].

Inductive Event : Type :=
| Message (msg : ExtensionMessage) (sender : MessageSender)
| Completes (task : TaskId) (r : Outcome)
| TimerFires (t : TimerId)
| Elapse (ms : Z)
| Drift (ms : Z).

Arguments Completes task%_nat r.
Arguments TimerFires t%_positive.

(** The first [resolve]/[reject] invoked on [p] settles it; later ones have
    no effect on the promise. *)
Fixpoint settlement_of (p : PromiseId) (l : list (PromiseId * Outcome)) : option Outcome :=
  match l with
  | [] => None
  | (q, o) :: rest => if Nat.eqb q p then Some o else settlement_of p rest
  end.

(** Where a handler stands after running a segment of its body. *)
Definition park (t : TaskId) (a : Async) (w : World) : World :=
  match a with
  | Return v => mkWorld (state w) (tasks w) (nextTask w) (responses w ++ [(t, Fulfilled v)])
  | Throw e => mkWorld (state w) (tasks w) (nextTask w) (responses w ++ [(t, Rejected e)])
  | _ => mkWorld (state w) (tasks w ++ [(t, a)]) (nextTask w) (responses w)
  end.

(** Answer the handlers whose approval promise has been settled. *)
Fixpoint wake_tasks (done : list (PromiseId * Outcome)) (ts : list (TaskId * Async))
  : list (TaskId * Async) * list (TaskId * Outcome) :=
  match ts with
  | [] => ([], [])
  | (t, a) :: rest =>
      let (keep, out) := wake_tasks done rest in
      match a with
      | ReturnPromise p =>
          match settlement_of p done with
          | Some o => (keep, (t, o) :: out)
          | None => ((t, a) :: keep, out)
          end
      | _ => ((t, a) :: keep, out)
      end
  end.

Definition wake (w : World) : World :=
  let (keep, out) := wake_tasks (settlements (state w)) (tasks w) in
  mkWorld (state w) keep (nextTask w) (responses w ++ out).

Fixpoint take_task (t : TaskId) (ts : list (TaskId * Async))
  : option (Async * list (TaskId * Async)) :=
  match ts with
  | [] => None
  | (t', a) :: rest =>
      if Nat.eqb t' t then Some (a, rest)
      else match take_task t rest with
           | Some (a', rest') => Some (a', (t', a) :: rest')
           | None => None
           end
  end.

Definition step (w : World) (e : Event) : World :=
  match e with
  | Message msg sender =>
      let (st', a) := handleMessage msg sender (state w) in
      wake (park (nextTask w) a (mkWorld st' (tasks w) (S (nextTask w)) (responses w)))
  | Completes t r =>
      match take_task t (tasks w) with
      | Some (Await _ k, rest) =>
          let (st', a) := k r (state w) in
          wake (park t a (mkWorld st' rest (nextTask w) (responses w)))
      | _ => w
      end
  | TimerFires t =>
      match timers (state w) !! t with
      | Some tm =>
          if (deadline tm <=? clock (state w))%Z then
            wake (mkWorld (runTimerCallback (callback tm) (clearTimeout t (state w)))
                    (tasks w) (nextTask w) (responses w))
          else w
      | None => w
      end
  | Elapse ms =>
      if (0 <=? ms)%Z then
        mkWorld (set_clock (clock (state w) + ms) (state w)) (tasks w) (nextTask w) (responses w)
      else w
  | Drift ms =>
      mkWorld (set_nowDrift ms (state w)) (tasks w) (nextTask w) (responses w)
  end.

Definition run (es : list Event) (w : World) : World := fold_left step es w.

(** How often a continuation of promise [p] was invoked. *)
Definition settle_count (p : PromiseId) (st : State) : nat :=
  length (filter (fun x => x.1 = p) (settlements st)).

(** What a suspended handler waits for, and its resumption when that call
    settles with [r] on the state [st] of that moment. *)
Definition awaits (a : Async) : option ExtCall :=
  match a with Await c _ => Some c | _ => None end.

Definition resume (a : Async) (r : Outcome) (st : State) : State * Async :=
  match a with Await _ k => k r st | _ => (st, a) end.

(** ** Error classes of the specification

    The spec speaks of error classes; the worker has the four codes of
    [ErrorCode], none of which stands for invalid parameters. *)
Inductive ErrorClass : Type :=
| Unauthorized
| UnsupportedMethod
| InvalidParams
| UserRejected
| Disconnected.

Definition error_class (c : ErrorCode) : ErrorClass :=
  match c with
  | UNAUTHORIZED => Unauthorized
  | UNSUPPORTED_METHOD => UnsupportedMethod
  | USER_REJECTED => UserRejected
  | DISCONNECTED => Disconnected
  end.

(** The class of the RPC error a promise was rejected with, or a handler
    has thrown. *)
Definition rejection_class (o : Outcome) : option ErrorClass :=
  match o with
  | Rejected (ThrownRPC e) => Some (error_class (code e))
  | _ => None
  end.

Definition thrown_class (a : Async) : option ErrorClass :=
  match a with
  | Throw (ThrownRPC e) => Some (error_class (code e))
  | _ => None
  end.

(** ** Scenarios used as concrete inputs *)

Definition dapp : MessageSender := mkSender (Some "https://dapp.example").

Definition validTx : JSValue :=
  JObject [("to", JString "hoosat:qz0example"); ("amount", JNumber 5)].

Definition noDestinationTx : JSValue := JObject [("amount", JNumber 5)].

Definition otherDapp : MessageSender := mkSender (Some "https://other.example").

Definition otherTx : JSValue :=
  JObject [("to", JString "hoosat:qz1other"); ("amount", JNumber 7)].

(** The session once the popup has reported the wallet unlocked. *)
Definition unlockedState : State := fst (handleMessage WALLET_UNLOCKED dapp initialState).

(** The wallet is unlocked (handler 0) and, one second later,
    [https://dapp.example] sends a transaction (handler 1); the origin is
    connected, the prompt is shown, and the caller is left suspended on
    the approval promise 0 under the id [tx_1000], with timer 3 armed. *)
Definition txPendingWorld : World :=
  run [Message WALLET_UNLOCKED dapp; Elapse 1000;
       Message (RPC_REQUEST (mkRPCRequest SEND_TRANSACTION validTx)) dapp;
       Completes 1 (Fulfilled (JBool true));
       Completes 1 (Fulfilled JUndefined);
       Completes 1 (Fulfilled JUndefined)] initialWorld.

Definition txRequest : DAppRequest :=
  mkDAppRequest "tx_1000" "https://dapp.example" SEND_TRANSACTION validTx 1000.

(** The same for [request_accounts] from an origin that is not connected:
    the caller is suspended on promise 0 under the id [connect_1000]. *)
Definition connectPendingWorld : World :=
  run [Message WALLET_UNLOCKED dapp; Elapse 1000;
       Message (RPC_REQUEST (mkRPCRequest REQUEST_ACCOUNTS (JObject []))) dapp;
       Completes 1 (Fulfilled (JBool false));
       Completes 1 (Fulfilled JUndefined);
       Completes 1 (Fulfilled JUndefined)] initialWorld.

Definition connectRequest : DAppRequest :=
  mkDAppRequest "connect_1000" "https://dapp.example" REQUEST_ACCOUNTS (JObject []) 1000.

(** No decision arrives during the five minutes, and the timeout fires. *)
Definition connectTimedOutWorld : World :=
  run [Elapse 300000; TimerFires 3] connectPendingWorld.

Definition txTimedOutWorld : World :=
  run [Elapse 300000; TimerFires 3] txPendingWorld.

(** [request_accounts] from an origin that is not connected, where
    [chrome.action.openPopup()] rejects. *)
Definition noPopupError : Thrown := ThrownError "Could not find an active browser window.".

Definition promptFailedWorld : World :=
  run [Message WALLET_UNLOCKED dapp; Elapse 1000;
       Message (RPC_REQUEST (mkRPCRequest REQUEST_ACCOUNTS (JObject []))) dapp;
       Completes 1 (Fulfilled (JBool false));
       Completes 1 (Fulfilled JUndefined);
       Completes 1 (Rejected noPopupError)] initialWorld.

(** Two connected origins send a transaction within the same millisecond:
    both handlers (1 and 2) resume from the authorization query while
    [Date.now()] reads 1000. *)
Definition collisionWorld : World :=
  run [Message WALLET_UNLOCKED dapp; Elapse 1000;
       Message (RPC_REQUEST (mkRPCRequest SEND_TRANSACTION validTx)) dapp;
       Message (RPC_REQUEST (mkRPCRequest SEND_TRANSACTION otherTx)) otherDapp;
       Completes 1 (Fulfilled (JBool true));
       Completes 2 (Fulfilled (JBool true))] initialWorld.

(** ** The claims the code does not meet, as predicates *)

(** The inactivity timer is as it was. *)
Definition timer_untouched (st st' : State) : Prop :=
  timers st' = timers st /\ sessionTimeout st' = sessionTimeout st.

(** What the spec promises of handler [t] when its prompt could not be
    shown: the pending request exists, the handler has not been answered
    with a failure, and it is suspended on an approval promise registered
    under [requestId] for which a timeout is armed. *)
Definition survives_prompt_failure (w : World) (t : TaskId) (requestId : string) : Prop :=
  is_Some (pendingRequests (state w) !! requestId)
  /\ (forall e, (t, Rejected e) ∉ responses w)
  /\ exists p, (t, ReturnPromise p) ∈ tasks w
       /\ approvalResolvers (state w) !! requestId = Some p
       /\ exists tm d, timers (state w) !! tm = Some (mkTimer d (ApprovalTimeoutCb requestId p)).

(** What the code does at the prompt step of a consent-requiring handler
    suspended at [a]: it awaits the session-storage write and then the
    popup; a failure of either is thrown out of the handler, and no step
    registers a waiter. *)
Definition prompt_failure_thrown (a : Async) (requestId : string) : Prop :=
  awaits a = Some (chrome_storage_session_set requestId)
  /\ (forall e st,
        snd (resume a (Rejected e) st) = Throw e
        /\ approvalResolvers (fst (resume a (Rejected e) st)) = approvalResolvers st)
  /\ (forall v st,
        awaits (snd (resume a (Fulfilled v) st)) = Some chrome_action_openPopup
        /\ approvalResolvers (fst (resume a (Fulfilled v) st)) = approvalResolvers st
        /\ forall e st',
             snd (resume (snd (resume a (Fulfilled v) st)) (Rejected e) st') = Throw e
             /\ approvalResolvers (fst (resume (snd (resume a (Fulfilled v) st))
                                           (Rejected e) st'))
                = approvalResolvers st').

(** ** The race on one request id

    A waiter [p] registered under [requestId], its timeout timer [t] due at
    [d], and the events that can reach it: decisions arriving on the
    approval channel (for any id), collaborator calls settling, timers
    firing and time passing.  Messages that register requests or rearm the
    inactivity timer are not part of the race. *)


(** What [resolveApproval] and [rejectApproval] have in common: the
    resolver registered under [requestId], if any, is invoked with [o] and
    removed. *)
Definition settleApproval (requestId : string) (o : Outcome) (st : State) : State :=
  match approvalResolvers st !! requestId with
  | Some resolver =>
      set_approvalResolvers (delete requestId (approvalResolvers st)) (settle resolver o st)
  | None => st
  end.

Definition waiter_open (requestId : string) (p : PromiseId) (st : State) : Prop :=
  approvalResolvers st !! requestId = Some p /\ settle_count p st = 0%nat.

Definition waiter_settled (requestId : string) (p : PromiseId) (st : State) : Prop :=
  approvalResolvers st !! requestId = None /\ settle_count p st = 1%nat.

(** A timeout closure is for [p] exactly when it is for [requestId]. *)
Definition timer_consistent (requestId : string) (p : PromiseId) (tm : Timer) : bool :=
  match callback tm with
  | LockWalletCb => true
  | ApprovalTimeoutCb id' q => Bool.eqb (Nat.eqb q p) (String.eqb id' requestId)
  end.

(** The invariant of the race.  [settled] records that a decisive event
    has been processed. *)
Record race_invariant
  (requestId : string) (p : PromiseId) (t : TimerId) (d : Z) (settled : bool) (st : State)
  : Prop := mkRaceInvariant {
  inv_resolvers : map_Forall (fun id' q => q = p -> id' = requestId) (approvalResolvers st);
  inv_timers : map_Forall (fun _ tm => timer_consistent requestId p tm = true) (timers st);
  inv_waiter : waiter_open requestId p st \/ waiter_settled requestId p st;
  inv_pending : is_Some (pendingRequests st !! requestId) \/ waiter_settled requestId p st;
  inv_timer : timers st !! t = Some (mkTimer d (ApprovalTimeoutCb requestId p))
              \/ waiter_settled requestId p st;
  inv_settled : settled = true -> waiter_settled requestId p st
}.

(** A suspended handler keeps the invariants [J i]: whenever it is
    resumed, it leaves a state satisfying each [J i] that held, and so on
    at its later suspensions. *)
Fixpoint preserves {I : Type} (J : I -> State -> Prop) (a : Async) : Prop :=
  match a with
  | Await _ k =>
      forall r st, (forall i, J i st -> J i (fst (k r st))) /\ preserves J (snd (k r st))
  | _ => True
  end.


(** The invariant on the event loop: the state satisfies it and every
    suspended handler keeps it. *)
Definition world_invariant
  (requestId : string) (p : PromiseId) (t : TimerId) (d : Z) (settled : bool) (w : World)
  : Prop :=
  race_invariant requestId p t d settled (state w)
  /\ Forall (fun ta => preserves (race_invariant requestId p t d) ta.2) (tasks w).


(** ** Invariants of the event loop *)

(** A suspended handler keeps [J] at every later resumption. *)
Definition keeps (J : State -> Prop) (a : Async) : Prop :=
  preserves (fun _ : unit => J) a.

(** Every handler in flight keeps [J]. *)
Definition tasks_keep (J : State -> Prop) (w : World) : Prop :=
  Forall (fun ta => keeps J ta.2) (tasks w).

(** A sequence of events without an unlock message. *)
Definition no_unlock (e : Event) : bool :=
  match e with
  | Message WALLET_UNLOCKED _ => false
  | _ => true
  end.

(** The inactivity timer: timer handles are below the next handle, the only
    live timer that locks the wallet is the one [sessionTimeout] holds, and
    an unlocked session has that timer live, due within thirty minutes. *)
Record session_invariant (st : State) : Prop := mkSessionInvariant {
  si_fresh : forall t tm, timers st !! t = Some tm -> (t < nextTimer st)%positive;
  si_single : forall t tm,
    timers st !! t = Some tm -> callback tm = LockWalletCb -> sessionTimeout st = Some t;
  si_armed : isUnlocked st = true ->
    exists t d, sessionTimeout st = Some t
                /\ timers st !! t = Some (mkTimer d LockWalletCb)
                /\ d <= clock st + SESSION_TIMEOUT_MS
}.

(** The waiter registry: registered and settled promises and those held by
    timeout closures were created by [waitForApproval]; a promise is
    registered under the id of its closure only, and under one id; and a
    registered promise has had none of its continuations invoked. *)
Record waiter_invariant (st : State) : Prop := mkWaiterInvariant {
  wi_registered : forall id p, approvalResolvers st !! id = Some p -> (p < nextPromise st)%nat;
  wi_settled : forall q o, (q, o) ∈ settlements st -> (q < nextPromise st)%nat;
  wi_closure : forall t tm id q,
    timers st !! t = Some tm -> callback tm = ApprovalTimeoutCb id q ->
    (q < nextPromise st)%nat /\ forall id', approvalResolvers st !! id' = Some q -> id' = id;
  wi_one_id : forall id1 id2 p,
    approvalResolvers st !! id1 = Some p -> approvalResolvers st !! id2 = Some p -> id1 = id2;
  wi_unsettled : forall id p, approvalResolvers st !! id = Some p -> settle_count p st = 0%nat
}.

(** A pending request as the two registering handlers build it: stored
    under its own id, which is the method prefix followed by the decimal
    rendering of a clock reading; a connection request has empty params, a
    transaction request has params that passed validation. *)
Definition pending_wellformed (key : string) (r : DAppRequest) : Prop :=
  req_id r = key
  /\ ((req_method r = REQUEST_ACCOUNTS
       /\ (exists t : Z, key = "connect_" +:+ pretty t)
       /\ req_params r = JObject [])
      \/ (req_method r = SEND_TRANSACTION
          /\ (exists t : Z, key = "tx_" +:+ pretty t)
          /\ invalidTransactionParams (req_params r) = Some false)).

Definition pending_invariant (st : State) : Prop :=
  map_Forall pending_wellformed (pendingRequests st).

(** A locked session in which nothing was added to the registries [pr] and [ar]. *)
Definition locked_within
  (pr : gmap string DAppRequest) (ar : gmap string PromiseId) (st : State) : Prop :=
  isUnlocked st = false
  /\ pendingRequests st ⊆ pr
  /\ approvalResolvers st ⊆ ar.

(** The registries are [pr] and [ar]. *)
Definition registries_are
  (pr : gmap string DAppRequest) (ar : gmap string PromiseId) (st : State) : Prop :=
  pendingRequests st = pr /\ approvalResolvers st = ar.

(** What [waitForApproval] has done when a registering handler, resumed on
    [st3] from its last prompt call, ends at [r]: the handler returns the
    fresh promise, which is registered under [requestId] with a timer due
    five minutes after [st3]; the pending requests and the settlements are
    those of [st3]. *)
Definition waiter_registered_at (requestId : string) (st3 : State) (r : State * Async) : Prop :=
  snd r = ReturnPromise (nextPromise st3)
  /\ approvalResolvers (fst r) = <[requestId := nextPromise st3]> (approvalResolvers st3)
  /\ timers (fst r)
     = <[nextTimer st3 := mkTimer (clock st3 + APPROVAL_TIMEOUT_MS)
                            (ApprovalTimeoutCb requestId (nextPromise st3))]> (timers st3)
  /\ pendingRequests (fst r) = pendingRequests st3
  /\ settlements (fst r) = settlements st3.

(** [txPendingEvents] followed by the popup's approval of [tx_1000]: handler
    2 is suspended on the submission to the Authority. *)
Definition txApprovedEvents : list Event :=
  [Message WALLET_UNLOCKED dapp; Elapse 1000;
   Message (RPC_REQUEST (mkRPCRequest SEND_TRANSACTION validTx)) dapp;
   Completes 1 (Fulfilled (JBool true));
   Completes 1 (Fulfilled JUndefined);
   Completes 1 (Fulfilled JUndefined);
   Message (TRANSACTION_APPROVED "tx_1000") dapp].

(** The events that lead from start-up to [txPendingWorld]. *)
Definition txPendingEvents : list Event :=
  [Message WALLET_UNLOCKED dapp; Elapse 1000;
   Message (RPC_REQUEST (mkRPCRequest SEND_TRANSACTION validTx)) dapp;
   Completes 1 (Fulfilled (JBool true));
   Completes 1 (Fulfilled JUndefined);
   Completes 1 (Fulfilled JUndefined)].

(** A suspended handler that never reads [isUnlocked]: resumed on a state
    with the flag changed, it does the same to the rest of the state and
    continues in the same way, at this and every later resumption. *)
Fixpoint lock_blind (a : Async) : Prop :=
  match a with
  | Await _ k =>
      forall r st b,
        fst (k r (set_isUnlocked b st)) = set_isUnlocked b (fst (k r st))
        /\ snd (k r (set_isUnlocked b st)) = snd (k r st)
        /\ lock_blind (snd (k r st))
  | _ => True
  end.

(** * Properties *)

(** ** Session guard and dispatch *)

Lemma dispatch_unlocked (request : RPCRequest) (origin : string) (st : State) :
  isUnlocked st = true ->
  dispatch request origin st =
    match method request with
    | REQUEST_ACCOUNTS => handleRequestAccounts origin
    | GET_ACCOUNTS => handleGetAccounts origin
    | GET_BALANCE => handleGetBalance (params request)
    | SEND_TRANSACTION => handleSendTransaction origin (params request)
    | GET_NETWORK => handleGetNetwork
    | OTHER_METHOD name =>
        throw (ThrownRPC (createRPCError UNSUPPORTED_METHOD ("Method not supported: " +:+ name)))
    end (resetSessionTimeout st).
Proof.
  intros Hu. unfold dispatch. rewrite Hu. simpl.
  destruct (method request); reflexivity.
Qed.

(** C4.  While the session is locked, a dispatch of any method other than
    [get_network] fails with the Unauthorized error 'Wallet is locked' and
    leaves the whole state, the pending-request registry included, as it
    was; the same holds of the message handler for every sender whose url
    yields an origin. *)
Theorem locked_dispatch_unauthorized (request : RPCRequest) (origin : string) (st : State) :
  isUnlocked st = false ->
  method request <> GET_NETWORK ->
  dispatch request origin st
    = (st, Throw (ThrownRPC (mkRPCError UNAUTHORIZED "Wallet is locked")))
  /\ thrown_class (snd (dispatch request origin st)) = Some Unauthorized
  /\ pendingRequests (fst (dispatch request origin st)) = pendingRequests st
  /\ handleMessage (RPC_REQUEST request) (mkSender (Some origin)) st
    = (st, Throw (ThrownRPC (mkRPCError UNAUTHORIZED "Wallet is locked"))).
Proof.
  intros Hl Hm.
  assert (E : dispatch request origin st
              = (st, Throw (ThrownRPC (mkRPCError UNAUTHORIZED "Wallet is locked")))).
  { unfold dispatch. rewrite Hl.
    destruct (method request); try reflexivity. congruence. }
  repeat split; try (rewrite E; reflexivity); exact E.
Qed.

Lemma locked_dispatch_unauthorized_witness :
  isUnlocked initialState = false
  /\ method (mkRPCRequest SEND_TRANSACTION validTx) <> GET_NETWORK
  /\ dispatch (mkRPCRequest SEND_TRANSACTION validTx) "https://dapp.example" initialState
      = (initialState, Throw (ThrownRPC (mkRPCError UNAUTHORIZED "Wallet is locked"))).
Proof.
  split; [reflexivity|]. split; [discriminate|].
  apply (locked_dispatch_unauthorized (mkRPCRequest SEND_TRANSACTION validTx)
           "https://dapp.example" initialState); [reflexivity | discriminate].
Defined.

(** A sender whose url yields no origin does not reach the session check:
    the handler fails with the [TypeError] of the [URL] constructor. *)
Example handleRPCRequest_without_origin (request : RPCRequest) (st : State) :
  handleRPCRequest request (mkSender None) st = (st, Throw (ThrownTypeError "Invalid URL")).
Proof. reflexivity. Qed.

(** The first scenario of the spec on the event loop: a locked session
    refuses [request_accounts] and registers nothing; once unlocked, the
    same call registers a pending request and suspends the caller; the
    approval answers it with the wallet's address. *)
Example locked_then_unlocked_run :
  let locked := run [Message (RPC_REQUEST (mkRPCRequest REQUEST_ACCOUNTS (JObject []))) dapp]
                  initialWorld in
  let approved := run [Message (CONNECTION_APPROVED "connect_1000") dapp;
                       Completes 2 (Fulfilled JUndefined);
                       Completes 2 (Fulfilled (JObject [("address", JString "hoosat:qq")]))]
                    connectPendingWorld in
  map (fun x => (x.1, envelope x.2)) (responses locked)
  = [(0%nat, Some (ResponseFailure "Wallet is locked"))]
  /\ pendingRequests (state locked) = ∅
  /\ map_to_list (pendingRequests (state connectPendingWorld))
     = [("connect_1000", connectRequest)]
  /\ tasks connectPendingWorld = [(1%nat, ReturnPromise 0%nat)]
  /\ responses approved
     = [(0%nat, Fulfilled successObject);
        (2%nat, Fulfilled successObject);
        (1%nat, Fulfilled (JArray [JString "hoosat:qq"]))]
  /\ pendingRequests (state approved) = ∅.
Proof. vm_compute. repeat split. Qed.

(** ** Parameter validation *)

(** C10.  [get_balance] with params whose [address] is missing or falsy
    fails with the error [{code: UNSUPPORTED_METHOD, message: 'Address is
    required'}]; the handler throws before its only [await], so
    [walletManager.getBalance] is not called.  This is what the handler
    does on every state, and what a dispatch does in an unlocked session. *)
Theorem get_balance_requires_address (params0 address : JSValue) (st : State) :
  get_prop params0 "address" = Some address ->
  truthy address = false ->
  handleGetBalance params0 st
    = (st, Throw (ThrownRPC (mkRPCError UNSUPPORTED_METHOD "Address is required")))
  /\ awaits (snd (handleGetBalance params0 st)) = None
  /\ forall origin, isUnlocked st = true ->
       dispatch (mkRPCRequest GET_BALANCE params0) origin st
       = (resetSessionTimeout st,
          Throw (ThrownRPC (mkRPCError UNSUPPORTED_METHOD "Address is required"))).
Proof.
  intros Hp Ha.
  assert (E : forall s, handleGetBalance params0 s
              = (s, Throw (ThrownRPC (mkRPCError UNSUPPORTED_METHOD "Address is required")))).
  { intros s. unfold handleGetBalance. rewrite Hp, Ha. reflexivity. }
  split; [apply E|]. split; [rewrite E; reflexivity|].
  intros origin Hu. rewrite dispatch_unlocked by exact Hu. apply E.
Qed.

Lemma get_balance_requires_address_witness :
  get_prop (JObject [("address", JString "")]) "address" = Some (JString "")
  /\ truthy (JString "") = false
  /\ handleGetBalance (JObject [("address", JString "")]) unlockedState
      = (unlockedState,
         Throw (ThrownRPC (mkRPCError UNSUPPORTED_METHOD "Address is required"))).
Proof.
  split; [reflexivity|]. split; [reflexivity|].
  apply (get_balance_requires_address (JObject [("address", JString "")]) (JString "")
           unlockedState); reflexivity.
Defined.

(** C5 as stated fails: a connected origin sending a transaction without a
    destination is refused with an error of class UnsupportedMethod, not
    InvalidParams. *)
Lemma send_transaction_invalid_params_counterexample :
  thrown_class
    (snd (resume (snd (dispatch (mkRPCRequest SEND_TRANSACTION noDestinationTx)
                         "https://dapp.example" unlockedState))
            (Fulfilled (JBool true)) unlockedState))
  <> Some InvalidParams.
Proof. vm_compute. discriminate. Qed.

(** C5, amended.  [send_transaction] from a connected origin whose params
    have a falsy [to] or an undefined [amount] fails with the error
    [{code: UNSUPPORTED_METHOD, message: 'Invalid transaction params'}],
    and no state, the pending-request registry included, is changed:
    neither before the authorization query nor when it has answered. *)
Theorem send_transaction_invalid_params
  (origin : string) (params0 to amount : JSValue) (st : State) :
  get_prop params0 "to" = Some to ->
  get_prop params0 "amount" = Some amount ->
  truthy to = false \/ amount = JUndefined ->
  fst (handleSendTransaction origin params0 st) = st
  /\ awaits (snd (handleSendTransaction origin params0 st)) = Some (isOriginConnected origin)
  /\ forall isConnected st1, truthy isConnected = true ->
       resume (snd (handleSendTransaction origin params0 st)) (Fulfilled isConnected) st1
       = (st1, Throw (ThrownRPC (mkRPCError UNSUPPORTED_METHOD "Invalid transaction params")))
       /\ thrown_class
            (snd (resume (snd (handleSendTransaction origin params0 st))
                    (Fulfilled isConnected) st1)) = Some UnsupportedMethod.
Proof.
  intros Hto Hamount Hbad.
  split; [reflexivity|]. split; [reflexivity|].
  intros isConnected st1 Hc.
  assert (Hinv : invalidTransactionParams params0 = Some true).
  { unfold invalidTransactionParams. rewrite Hto.
    destruct (truthy to) eqn:Et; simpl; [|reflexivity].
    rewrite Hamount. destruct Hbad as [Hf | ->]; [discriminate | reflexivity]. }
  assert (E : resume (snd (handleSendTransaction origin params0 st)) (Fulfilled isConnected) st1
              = (st1, Throw (ThrownRPC (mkRPCError UNSUPPORTED_METHOD
                                          "Invalid transaction params")))).
  { simpl. rewrite Hc. simpl. rewrite Hinv. reflexivity. }
  split; [exact E | rewrite E; reflexivity].
Qed.

Lemma send_transaction_invalid_params_witness :
  get_prop noDestinationTx "to" = Some JUndefined
  /\ get_prop noDestinationTx "amount" = Some (JNumber 5)
  /\ (truthy JUndefined = false \/ JNumber 5 = JUndefined)
  /\ truthy (JBool true) = true
  /\ resume (snd (handleSendTransaction "https://dapp.example" noDestinationTx unlockedState))
       (Fulfilled (JBool true)) unlockedState
     = (unlockedState,
        Throw (ThrownRPC (mkRPCError UNSUPPORTED_METHOD "Invalid transaction params"))).
Proof.
  split; [reflexivity|]. split; [reflexivity|]. split; [left; reflexivity|].
  split; [reflexivity|].
  destruct (send_transaction_invalid_params "https://dapp.example" noDestinationTx
              JUndefined (JNumber 5) unlockedState eq_refl eq_refl (or_introl eq_refl))
    as (_ & _ & H).
  destruct (H (JBool true) unlockedState eq_refl) as [E _].
  exact E.
Defined.

(** ** Approval channel *)

Lemma resolveApproval_unregistered (requestId : string) (v : JSValue) (st : State) :
  approvalResolvers st !! requestId = None ->
  resolveApproval requestId v st = st.
Proof.
  intros H. unfold resolveApproval. rewrite H. reflexivity.
Qed.

(** A failing submission on the event loop: the dApp's handler 1 is
    answered with the Disconnected error, the popup's handler 2 with
    success, and the registry is empty. *)
Example transaction_submit_failure_run :
  let w := run [Message (TRANSACTION_APPROVED "tx_1000") dapp;
                Completes 2 (Rejected (ThrownError "insufficient funds"))]
             txPendingWorld in
  responses w
  = [(0%nat, Fulfilled successObject);
     (2%nat, Fulfilled successObject);
     (1%nat, Rejected (ThrownRPC (mkRPCError DISCONNECTED "insufficient funds")))]
  /\ pendingRequests (state w) = ∅
  /\ approvalResolvers (state w) = ∅.
Proof. vm_compute. repeat split. Qed.

(** C9.  A connection approval that finds the pending request but no
    waiter (the timeout has removed it) still records the origin as
    connected: the handler calls [addConnectedSite(request.origin)], then
    reads the current wallet; [resolveApproval] then finds no resolver, so
    no continuation is invoked; the pending request is deleted and the
    handler returns [{success: true}]. *)
Theorem connection_approval_after_timeout
  (requestId : string) (request : DAppRequest) (st : State) :
  pendingRequests st !! requestId = Some request ->
  fst (handleConnectionApproval requestId true st) = st
  /\ awaits (snd (handleConnectionApproval requestId true st))
     = Some (addConnectedSite (req_origin request))
  /\ forall v st1,
       let r1 := resume (snd (handleConnectionApproval requestId true st)) (Fulfilled v) st1 in
       fst r1 = st1
       /\ awaits (snd r1) = Some getCurrentWallet
       /\ forall wallet st2,
            approvalResolvers st2 !! requestId = None ->
            let r2 := resume (snd r1) (Fulfilled wallet) st2 in
            snd r2 = Return successObject
            /\ settlements (fst r2) = settlements st2
            /\ pendingRequests (fst r2) = delete requestId (pendingRequests st2)
            /\ pendingRequests (fst r2) !! requestId = None.
Proof.
  intros Hreq. unfold handleConnectionApproval. rewrite Hreq. simpl.
  split; [reflexivity|]. split; [reflexivity|].
  intros v st1. split; [reflexivity|]. split; [reflexivity|].
  intros wallet st2 Hnone. simpl.
  rewrite (resolveApproval_unregistered requestId (accountsOf wallet) st2 Hnone).
  repeat split; try reflexivity. apply lookup_delete_eq.
Qed.

Lemma connection_approval_after_timeout_witness :
  pendingRequests (state connectTimedOutWorld) !! "connect_1000" = Some connectRequest
  /\ approvalResolvers (state connectTimedOutWorld) !! "connect_1000" = None
  /\ awaits (snd (handleConnectionApproval "connect_1000" true (state connectTimedOutWorld)))
     = Some (addConnectedSite "https://dapp.example").
Proof.
  assert (Hq : pendingRequests (state connectTimedOutWorld) !! "connect_1000"
               = Some connectRequest) by (vm_compute; reflexivity).
  split; [exact Hq|]. split; [vm_compute; reflexivity|].
  destruct (connection_approval_after_timeout "connect_1000" connectRequest
              (state connectTimedOutWorld) Hq) as (_ & Ha & _).
  exact Ha.
Defined.

(** The whole exchange of C9 on the event loop: the dApp's handler 1 has
    been answered with the timeout, the popup's approval (handler 2) is
    answered with success after both collaborator calls, and the only
    continuation ever invoked is the timeout's rejection. *)
Example late_connection_approval_run :
  let w := run [Message (CONNECTION_APPROVED "connect_1000") dapp;
                Completes 2 (Fulfilled JUndefined);
                Completes 2 (Fulfilled (JObject [("address", JString "hoosat:qq")]))]
             connectTimedOutWorld in
  responses w
  = [(0%nat, Fulfilled successObject);
     (1%nat, Rejected (ThrownRPC (mkRPCError USER_REJECTED "Request timeout")));
     (2%nat, Fulfilled successObject)]
  /\ settlements (state w)
     = [(0%nat, Rejected (ThrownRPC (mkRPCError USER_REJECTED "Request timeout")))]
  /\ pendingRequests (state w) !! "connect_1000" = None.
Proof. vm_compute. repeat split. Qed.

(** ** Inactivity timer *)

(** C8 as stated fails: on the locked start-up state, which has no timer,
    a [get_network] dispatch arms one. *)
Lemma touch_noop_when_locked_counterexample :
  isUnlocked initialState = false
  /\ ~ timer_untouched initialState
        (fst (dispatch (mkRPCRequest GET_NETWORK JUndefined) "https://dapp.example"
                initialState)).
Proof.
  split; [reflexivity|]. intros [_ H]. vm_compute in H. discriminate H.
Qed.

(** C8, amended.  [resetSessionTimeout] does not look at [isUnlocked]: a
    [get_network] dispatch in a locked session cancels the inactivity
    timer, if there is one, and arms a new one that locks the wallet
    thirty minutes from now; [isUnlocked] stays false. *)
Theorem touch_rearms_timer_when_locked (params0 : JSValue) (origin : string) (st : State) :
  isUnlocked st = false ->
  let st' := fst (dispatch (mkRPCRequest GET_NETWORK params0) origin st) in
  st' = resetSessionTimeout st
  /\ isUnlocked st' = false
  /\ sessionTimeout st' = Some (nextTimer st)
  /\ timers st' !! nextTimer st = Some (mkTimer (clock st + SESSION_TIMEOUT_MS) LockWalletCb)
  /\ forall t, sessionTimeout st = Some t -> t <> nextTimer st -> timers st' !! t = None.
Proof.
  intros Hl. unfold dispatch. rewrite Hl. simpl.
  unfold resetSessionTimeout.
  destruct (sessionTimeout st) as [t0|] eqn:Et; simpl.
  - repeat split; try assumption.
    + apply lookup_insert_eq.
    + intros t [= <-] Hne. rewrite lookup_insert_ne by congruence. apply lookup_delete_eq.
  - repeat split; try assumption.
    + apply lookup_insert_eq.
    + intros t [=].
Qed.

Lemma touch_rearms_timer_when_locked_witness :
  isUnlocked initialState = false
  /\ timers (fst (dispatch (mkRPCRequest GET_NETWORK JUndefined) "https://dapp.example"
                    initialState)) !! nextTimer initialState
     = Some (mkTimer (clock initialState + SESSION_TIMEOUT_MS) LockWalletCb).
Proof.
  split; [reflexivity|].
  destruct (touch_rearms_timer_when_locked JUndefined "https://dapp.example" initialState
              eq_refl) as (_ & _ & _ & H & _).
  exact H.
Defined.

(** ** Prompt surface *)

Lemma openPopupWithRequest_failure (requestId : string) (rest : Coroutine) (st : State) :
  fst (openPopupWithRequest requestId rest st) = st
  /\ prompt_failure_thrown (snd (openPopupWithRequest requestId rest st)) requestId.
Proof.
  unfold openPopupWithRequest, prompt_failure_thrown. simpl. repeat split.
Qed.

(** C3 as stated fails: when [chrome.action.openPopup()] rejects, the
    dApp's handler is answered with that error. *)
Lemma prompt_failure_counterexample :
  ~ survives_prompt_failure promptFailedWorld 1%nat "connect_1000".
Proof.
  intros (_ & H & _). apply (H noPopupError).
  assert (E : responses promptFailedWorld
              = [(0%nat, Fulfilled successObject); (1%nat, Rejected noPopupError)])
    by (vm_compute; reflexivity).
  rewrite E. apply list_elem_of_In. right. left. reflexivity.
Qed.

(** C3, amended.  A consent-requiring handler ([request_accounts] from an
    origin that is not connected, a valid [send_transaction] from one that
    is) awaits the two prompt calls without a [try]: if the session-storage
    write or the popup fails, that error is thrown out of the handler, so
    the dispatch fails with it, and the handler has registered no waiter:
    the caller is answered, not suspended. *)
Theorem prompt_failure_fails_dispatch (origin : string) (params0 : JSValue) (st : State) :
  (forall isConnected st1,
     truthy isConnected = false ->
     let r := resume (snd (handleRequestAccounts origin st)) (Fulfilled isConnected) st1 in
     approvalResolvers (fst r) = approvalResolvers st1
     /\ prompt_failure_thrown (snd r) ("connect_" +:+ pretty (clock st1)))
  /\ (forall isConnected st1,
        truthy isConnected = true ->
        invalidTransactionParams params0 = Some false ->
        let r := resume (snd (handleSendTransaction origin params0 st))
                   (Fulfilled isConnected) st1 in
        approvalResolvers (fst r) = approvalResolvers st1
        /\ prompt_failure_thrown (snd r) ("tx_" +:+ pretty (clock st1))).
Proof.
  split.
  - intros isConnected st1 Hc. simpl. rewrite Hc.
    match goal with
    | |- context [openPopupWithRequest ?i ?k ?s] =>
        destruct (openPopupWithRequest_failure i k s) as [E1 E2]
    end.
    rewrite E1. split; [reflexivity | exact E2].
  - intros isConnected st1 Hc Hv. simpl. rewrite Hc. simpl. rewrite Hv.
    match goal with
    | |- context [openPopupWithRequest ?i ?k ?s] =>
        destruct (openPopupWithRequest_failure i k s) as [E1 E2]
    end.
    rewrite E1. split; [reflexivity | exact E2].
Qed.

Lemma prompt_failure_fails_dispatch_witness :
  truthy (JBool false) = false
  /\ forall e st2,
       snd (resume
              (snd (resume (snd (handleRequestAccounts "https://dapp.example" unlockedState))
                      (Fulfilled (JBool false)) unlockedState))
              (Rejected e) st2)
       = Throw e.
Proof.
  split; [reflexivity|].
  destruct (prompt_failure_fails_dispatch "https://dapp.example" validTx unlockedState)
    as [H _].
  destruct (H (JBool false) unlockedState eq_refl) as (_ & _ & Hfail & _).
  intros e st2. exact (proj1 (Hfail e st2)).
Defined.

(** ** Request ids *)

(** Two transaction ids are equal exactly when the clock readings are. *)
Lemma transaction_id_inj (t1 t2 : Z) :
  "tx_" +:+ pretty t1 = "tx_" +:+ pretty t2 <-> t1 = t2.
Proof.
  split; [|intros ->; reflexivity].
  intros H. apply (inj (String.app "tx_")) in H. apply (inj pretty) in H. exact H.
Qed.

Lemma connection_id_inj (t1 t2 : Z) :
  "connect_" +:+ pretty t1 = "connect_" +:+ pretty t2 <-> t1 = t2.
Proof.
  split; [|intros ->; reflexivity].
  intros H. apply (inj (String.app "connect_")) in H. apply (inj pretty) in H. exact H.
Qed.

Lemma connection_id_not_transaction_id (t1 t2 : Z) :
  "connect_" +:+ pretty t1 <> "tx_" +:+ pretty t2.
Proof. simpl. discriminate. Qed.

(** C6 fails on the code.  Both handlers of [collisionWorld] have
    generated the id [tx_1000] (each is suspended on writing it to session
    storage), and the registry holds a single entry, the second request:
    the first was overwritten. *)
Theorem request_id_collision :
  map (fun ta => (ta.1, awaits ta.2)) (tasks collisionWorld)
  = [(1%nat, Some (chrome_storage_session_set "tx_1000"));
     (2%nat, Some (chrome_storage_session_set "tx_1000"))]
  /\ map_to_list (pendingRequests (state collisionWorld))
     = [("tx_1000",
         mkDAppRequest "tx_1000" "https://other.example" SEND_TRANSACTION otherTx 1000)].
Proof. vm_compute. split; reflexivity. Qed.

(** What follows from the collision: after both prompts, one approval
    settles only the second caller; the first caller's timeout then finds
    no resolver, so handler 1 is never answered. *)
Example request_id_collision_run :
  let w := run [Completes 1 (Fulfilled JUndefined); Completes 1 (Fulfilled JUndefined);
                Completes 2 (Fulfilled JUndefined); Completes 2 (Fulfilled JUndefined);
                Message (TRANSACTION_APPROVED "tx_1000") dapp;
                Completes 3 (Fulfilled (JString "txid"));
                Elapse 300000; TimerFires 4; TimerFires 5] collisionWorld in
  responses w
  = [(0%nat, Fulfilled successObject);
     (3%nat, Fulfilled successObject);
     (2%nat, Fulfilled (JString "txid"))]
  /\ map (fun ta => ta.1) (tasks w) = [1%nat]
  /\ map_to_list (timers (state w)) = [(3%positive, mkTimer 1801000 LockWalletCb)].
Proof. vm_compute. repeat split. Qed.

(** ** Timeout *)

Lemma wake_state (w : World) : state (wake w) = state w.
Proof.
  unfold wake. destruct (wake_tasks (settlements (state w)) (tasks w)). reflexivity.
Qed.

Lemma approvalTimeout_registered
  (requestId : string) (p q : PromiseId) (st : State) :
  approvalResolvers st !! requestId = Some q ->
  approvalTimeout requestId p st
  = settle p (Rejected (ThrownRPC (mkRPCError USER_REJECTED "Request timeout")))
      (set_approvalResolvers (delete requestId (approvalResolvers st)) st).
Proof.
  intros H. unfold approvalTimeout. rewrite H. reflexivity.
Qed.

(** C1 fails on the code.  On a registered connection request the event
    sequence consisting of the timeout alone settles the waiter exactly
    once (the caller is answered with the timeout rejection and the
    waiter is removed), but the pending request is still in the registry
    after the sequence. *)
Theorem timeout_alone_leaves_pending_request :
  connectTimedOutWorld = run [Elapse 300000; TimerFires 3] connectPendingWorld
  /\ approvalResolvers (state connectPendingWorld) !! "connect_1000" = Some 0%nat
  /\ settle_count 0%nat (state connectPendingWorld) = 0%nat
  /\ settle_count 0%nat (state connectTimedOutWorld) = 1%nat
  /\ responses connectTimedOutWorld
     = [(0%nat, Fulfilled successObject);
        (1%nat, Rejected (ThrownRPC (mkRPCError USER_REJECTED "Request timeout")))]
  /\ approvalResolvers (state connectTimedOutWorld) !! "connect_1000" = None
  /\ pendingRequests (state connectTimedOutWorld) !! "connect_1000" = Some connectRequest.
Proof. vm_compute. repeat split. Qed.

(** C2 fails on the code.  When the approval timer of a registered
    request fires, the timeout's [reject] is invoked with
    [{code: USER_REJECTED, message: 'Request timeout'}] and the waiter is
    removed, but the callback does not touch [pendingRequests]: the
    pending request is in the registry afterwards. *)
Theorem timeout_keeps_pending_request
  (w : World) (t : TimerId) (d : Z) (requestId : string) (p : PromiseId)
  (request : DAppRequest) :
  timers (state w) !! t = Some (mkTimer d (ApprovalTimeoutCb requestId p)) ->
  d <= clock (state w) ->
  approvalResolvers (state w) !! requestId = Some p ->
  pendingRequests (state w) !! requestId = Some request ->
  let w' := step w (TimerFires t) in
  settlements (state w')
  = settlements (state w)
    ++ [(p, Rejected (ThrownRPC (mkRPCError USER_REJECTED "Request timeout")))]
  /\ approvalResolvers (state w') !! requestId = None
  /\ pendingRequests (state w') = pendingRequests (state w)
  /\ pendingRequests (state w') !! requestId = Some request.
Proof.
  intros Ht Hd Hp Hq. simpl. rewrite Ht. simpl.
  destruct (Z.leb_spec d (clock (state w))) as [_|Hlt]; [|lia].
  rewrite wake_state. simpl.
  rewrite (approvalTimeout_registered requestId p p) by exact Hp.
  simpl. repeat split; [apply lookup_delete_eq | exact Hq].
Qed.

Lemma timeout_keeps_pending_request_witness :
  let w := step txPendingWorld (Elapse 300000) in
  timers (state w) !! 3%positive = Some (mkTimer 301000 (ApprovalTimeoutCb "tx_1000" 0%nat))
  /\ 301000 <= clock (state w)
  /\ approvalResolvers (state w) !! "tx_1000" = Some 0%nat
  /\ pendingRequests (state w) !! "tx_1000" = Some txRequest
  /\ pendingRequests (state (step w (TimerFires 3))) !! "tx_1000" = Some txRequest.
Proof.
  intros w.
  assert (H1 : timers (state w) !! 3%positive
               = Some (mkTimer 301000 (ApprovalTimeoutCb "tx_1000" 0%nat)))
    by (vm_compute; reflexivity).
  assert (H2 : 301000 <= clock (state w)) by (vm_compute; discriminate).
  assert (H3 : approvalResolvers (state w) !! "tx_1000" = Some 0%nat)
    by (vm_compute; reflexivity).
  assert (H4 : pendingRequests (state w) !! "tx_1000" = Some txRequest)
    by (vm_compute; reflexivity).
  split; [exact H1|]. split; [exact H2|]. split; [exact H3|]. split; [exact H4|].
  destruct (timeout_keeps_pending_request w 3%positive 301000 "tx_1000" 0%nat txRequest
              H1 H2 H3 H4) as (_ & _ & _ & H).
  exact H.
Defined.

(** The scenario of C2 on the event loop: the caller is answered with the
    timeout rejection, and the registry is not empty. *)
Example transaction_timeout_run :
  responses txTimedOutWorld
  = [(0%nat, Fulfilled successObject);
     (1%nat, Rejected (ThrownRPC (mkRPCError USER_REJECTED "Request timeout")))]
  /\ map_to_list (pendingRequests (state txTimedOutWorld)) = [("tx_1000", txRequest)].
Proof. vm_compute. split; reflexivity. Qed.

(** ** Exactly-once settlement *)

Lemma settle_count_settle (p q : PromiseId) (o : Outcome) (st : State) :
  settle_count p (settle q o st)
  = (settle_count p st + (if decide (q = p) then 1 else 0))%nat.
Proof.
  unfold settle_count, settle. simpl. rewrite filter_app, length_app.
  f_equal. rewrite filter_cons. simpl. destruct (decide (q = p)); reflexivity.
Qed.

Lemma resolveApproval_settleApproval (requestId : string) (v : JSValue) (st : State) :
  resolveApproval requestId v st = settleApproval requestId (Fulfilled v) st.
Proof.
  unfold resolveApproval, settleApproval. destruct (_ !! _); reflexivity.
Qed.

Lemma rejectApproval_settleApproval (requestId : string) (e : Thrown) (st : State) :
  rejectApproval requestId e st = settleApproval requestId (Rejected e) st.
Proof.
  unfold rejectApproval, settleApproval. destruct (_ !! _); reflexivity.
Qed.

Section Race.

Variable requestId : string.
Variable p : PromiseId.
Variable t : TimerId.
Variable d : Z.

#[local] Abbreviation Inv := (race_invariant requestId p t d).
#[local] Abbreviation settled_ := (waiter_settled requestId p).
#[local] Abbreviation open_ := (waiter_open requestId p).

Lemma open_not_settled (st : State) : open_ st -> settled_ st -> False.
Proof. intros [H1 _] [H2 _]. congruence. Qed.


(** Once the waiter is settled, the invariant only needs the two
    consistency conditions. *)
Lemma race_invariant_settled (b : bool) (st : State) :
  settled_ st ->
  map_Forall (fun id' q => q = p -> id' = requestId) (approvalResolvers st) ->
  map_Forall (fun _ tm => timer_consistent requestId p tm = true) (timers st) ->
  Inv b st.
Proof. intros Hs Hr Ht. constructor; auto. Qed.


Lemma race_invariant_weaken (b : bool) (st : State) : Inv b st -> Inv false st.
Proof. intros [H1 H2 H3 H4 H5 H6]. constructor; auto. discriminate. Qed.




Lemma race_invariant_any (b : bool) (st : State) : Inv true st -> Inv b st.
Proof.
  intros HI. apply race_invariant_settled; [|apply HI ..].
  apply (inv_settled _ _ _ _ _ _ HI). reflexivity.
Qed.







(** *** Timers *)






(** *** The event loop *)

#[local] Abbreviation WInv := (world_invariant requestId p t d).

Lemma wake_tasks_Forall (P : TaskId * Async -> Prop)
  (done : list (PromiseId * Outcome)) (ts : list (TaskId * Async)) :
  Forall P ts -> Forall P (wake_tasks done ts).1.
Proof.
  induction 1 as [|[c a] ts Ha Hts IH]; simpl; [constructor|].
  destruct (wake_tasks done ts) as [keep out]. simpl in IH.
  destruct a as [v|e|q|c0 k]; simpl; try (constructor; assumption).
  destruct (settlement_of q done); simpl; [assumption | constructor; assumption].
Qed.



Lemma take_task_Forall (Q : Async -> Prop) (c : TaskId) (ts rest : list (TaskId * Async))
  (a : Async) :
  Forall (fun ta => Q ta.2) ts ->
  take_task c ts = Some (a, rest) ->
  Q a /\ Forall (fun ta => Q ta.2) rest.
Proof.
  intros H. revert a rest. induction H as [|[c' a'] ts Ha Hts IH]; intros a rest; simpl.
  - discriminate.
  - destruct (Nat.eqb c' c).
    + intros [= <- <-]. split; assumption.
    + destruct (take_task c ts) as [[a0 rest0]|]; [|discriminate].
      intros [= <- <-]. destruct (IH a0 rest0 eq_refl) as [X Y].
      split; [exact X | constructor; assumption].
Qed.






End Race.


(** * Further properties of the worker *)

(** ** Lifting an invariant to the event loop *)

Section EventLoopInvariant.

Variable J : State -> Prop.
Variable allowed : Event -> Prop.

Hypothesis J_message : forall msg sender st,
  allowed (Message msg sender) -> J st ->
  J (fst (handleMessage msg sender st)) /\ keeps J (snd (handleMessage msg sender st)).
Hypothesis J_timer : forall t tm st,
  J st -> timers st !! t = Some tm -> deadline tm <= clock st ->
  J (runTimerCallback (callback tm) (clearTimeout t st)).
Hypothesis J_clock : forall ms st, 0 <= ms -> J st -> J (set_clock (clock st + ms) st).
Hypothesis J_drift : forall ms st, J st -> J (set_nowDrift ms st).

Lemma park_keeps (c : TaskId) (a : Async) (w : World) :
  tasks_keep J w -> keeps J a -> tasks_keep J (park c a w).
Proof.
  unfold tasks_keep. intros Hw Ha. destruct a; simpl; try exact Hw.
  - apply Forall_app. split; [exact Hw | constructor; [exact I | constructor]].
  - apply Forall_app. split; [exact Hw | constructor; [exact Ha | constructor]].
Qed.

Lemma park_state (c : TaskId) (a : Async) (w : World) : state (park c a w) = state w.
Proof. destruct a; reflexivity. Qed.

Lemma wake_keeps (w : World) : tasks_keep J w -> tasks_keep J (wake w).
Proof.
  unfold tasks_keep, wake. intros Hw.
  pose proof (wake_tasks_Forall _ (settlements (state w)) (tasks w) Hw) as H.
  destruct (wake_tasks (settlements (state w)) (tasks w)). exact H.
Qed.

Lemma step_keeps (w : World) (e : Event) :
  allowed e -> J (state w) -> tasks_keep J w ->
  J (state (step w e)) /\ tasks_keep J (step w e).
Proof.
  intros He HJ Hts. destruct e as [msg sender | c r | t | ms | ms]; simpl.
  - destruct (J_message msg sender (state w) He HJ) as [H1 H2].
    destruct (handleMessage msg sender (state w)) as [st' a]. simpl in H1, H2.
    split.
    + rewrite wake_state, park_state. exact H1.
    + apply wake_keeps, park_keeps; assumption.
  - destruct (take_task c (tasks w)) as [[a rest]|] eqn:Et; [|split; assumption].
    destruct (take_task_Forall (keeps J) c (tasks w) rest a Hts Et) as [Ha Hrest].
    destruct a as [v|e|q|c0 k]; try (split; assumption).
    destruct (Ha r (state w)) as [H1 H2].
    destruct (k r (state w)) as [st' a']. simpl in H1, H2.
    split.
    + rewrite wake_state, park_state. apply (H1 tt). exact HJ.
    + apply wake_keeps, park_keeps; assumption.
  - destruct (timers (state w) !! t) as [tm|] eqn:Et; [|split; assumption].
    destruct (Z.leb_spec (deadline tm) (clock (state w))) as [Hd|_]; [|split; assumption].
    split.
    + rewrite wake_state. simpl. apply J_timer; assumption.
    + apply wake_keeps. exact Hts.
  - destruct (Z.leb_spec 0 ms) as [Hms|_]; [|split; assumption].
    split; [apply J_clock; assumption | exact Hts].
  - split; [apply J_drift; assumption | exact Hts].
Qed.

Lemma run_keeps (es : list Event) (w : World) :
  Forall allowed es -> J (state w) -> tasks_keep J w ->
  J (state (run es w)) /\ tasks_keep J (run es w).
Proof.
  intros Hes. revert w. induction Hes as [|e es He Hes IH]; intros w HJ Hts.
  - split; assumption.
  - destruct (step_keeps w e He HJ Hts) as [H1 H2]. apply IH; assumption.
Qed.

End EventLoopInvariant.

(** ** What the handlers do to the state

    Every handler changes the state only through the steps below, each of
    which is one atomic segment of the source; an invariant kept by these
    steps is kept by [handleMessage] and by all its later resumptions. *)

Section HandlerInvariant.

Variable J : State -> Prop.

Hypothesis J_touch : forall st, J st -> J (resetSessionTimeout st).
Hypothesis J_unlock : forall st, J st -> J (resetSessionTimeout (set_isUnlocked true st)).
Hypothesis J_register_connect : forall origin st,
  J st ->
  J (set_pendingRequests
       (<["connect_" +:+ pretty (clock st) :=
            mkDAppRequest ("connect_" +:+ pretty (clock st)) origin REQUEST_ACCOUNTS
              (JObject []) (secondDateNow st)]> (pendingRequests st)) st).
Hypothesis J_register_tx : forall origin params0 st,
  invalidTransactionParams params0 = Some false ->
  J st ->
  J (set_pendingRequests
       (<["tx_" +:+ pretty (clock st) :=
            mkDAppRequest ("tx_" +:+ pretty (clock st)) origin SEND_TRANSACTION
              params0 (secondDateNow st)]> (pendingRequests st)) st).
Hypothesis J_wait : forall requestId st,
  J st -> J (fst (waitForApproval requestId APPROVAL_TIMEOUT_MS st)).
Hypothesis J_settle : forall requestId o st, J st -> J (settleApproval requestId o st).
Hypothesis J_delete : forall requestId st,
  J st -> J (set_pendingRequests (delete requestId (pendingRequests st)) st).

Lemma openPopupWithRequest_keeps (requestId : string) (st : State) :
  keeps J
    (snd (openPopupWithRequest requestId
            (fun st2 => let (st3, p) := waitForApproval requestId APPROVAL_TIMEOUT_MS st2 in
                        (st3, ReturnPromise p)) st)).
Proof.
  simpl. intros r st1. destruct r; [|split; [auto | exact I]].
  split; [auto|]. simpl. intros r st2. destruct r; [|split; [auto | exact I]].
  split; [intros _ H; exact (J_wait requestId st2 H) | exact I].
Qed.

Lemma handleRequestAccounts_keeps (origin : string) (st : State) :
  (J st -> J (fst (handleRequestAccounts origin st)))
  /\ keeps J (snd (handleRequestAccounts origin st)).
Proof.
  split; [auto|]. simpl. intros r st1. destruct r as [v|e]; [|split; [auto | exact I]].
  simpl. destruct (truthy v).
  - split; [auto|]. simpl. intros r st2. destruct r; split; auto; exact I.
  - split; [intros _; apply J_register_connect | apply openPopupWithRequest_keeps].
Qed.

Lemma handleGetAccounts_keeps (origin : string) (st : State) :
  (J st -> J (fst (handleGetAccounts origin st)))
  /\ keeps J (snd (handleGetAccounts origin st)).
Proof.
  split; [auto|]. simpl. intros r st1. destruct r as [v|e]; [|split; [auto | exact I]].
  simpl. destruct (truthy v); simpl; [|split; [auto | exact I]].
  split; [auto|]. simpl. intros r st2. destruct r; split; auto; exact I.
Qed.

Lemma handleGetBalance_keeps (params0 : JSValue) (st : State) :
  (J st -> J (fst (handleGetBalance params0 st)))
  /\ keeps J (snd (handleGetBalance params0 st)).
Proof.
  unfold handleGetBalance. destruct (get_prop params0 "address") as [a|]; [|split; [auto | exact I]].
  destruct (truthy a); simpl; [|split; [auto | exact I]].
  split; [auto|]. intros r st1. destruct r; split; auto; exact I.
Qed.

Lemma handleSendTransaction_keeps (origin : string) (params0 : JSValue) (st : State) :
  (J st -> J (fst (handleSendTransaction origin params0 st)))
  /\ keeps J (snd (handleSendTransaction origin params0 st)).
Proof.
  split; [auto|]. simpl. intros r st1. destruct r as [v|e]; [|split; [auto | exact I]].
  simpl. destruct (truthy v); simpl; [|split; [auto | exact I]].
  destruct (invalidTransactionParams params0) as [[|]|] eqn:Ev; try (split; [auto | exact I]).
  split; [intros _; apply J_register_tx; exact Ev | apply openPopupWithRequest_keeps].
Qed.

Lemma handleGetNetwork_keeps (st : State) :
  (J st -> J (fst (handleGetNetwork st))) /\ keeps J (snd (handleGetNetwork st)).
Proof.
  split; [auto|]. simpl. intros r st1. destruct r; split; auto; exact I.
Qed.

Lemma handleRPCRequest_keeps (request : RPCRequest) (sender : MessageSender) (st : State) :
  (J st -> J (fst (handleRPCRequest request sender st)))
  /\ keeps J (snd (handleRPCRequest request sender st)).
Proof.
  unfold handleRPCRequest. destruct (sender_origin sender) as [origin|]; [|split; [auto | exact I]].
  unfold dispatch.
  destruct (negb (isUnlocked st) && negb (is_GET_NETWORK (method request)));
    [split; [auto | exact I]|].
  destruct (method request).
  - destruct (handleRequestAccounts_keeps origin (resetSessionTimeout st)); split; auto.
  - destruct (handleGetAccounts_keeps origin (resetSessionTimeout st)); split; auto.
  - destruct (handleGetBalance_keeps (params request) (resetSessionTimeout st)); split; auto.
  - destruct (handleSendTransaction_keeps origin (params request) (resetSessionTimeout st));
      split; auto.
  - destruct (handleGetNetwork_keeps (resetSessionTimeout st)); split; auto.
  - split; [simpl; auto | exact I].
Qed.

Lemma settle_and_delete_keeps (requestId : string) (o : Outcome) (st : State) :
  J st -> J (fst (deletePendingAndReturn requestId (settleApproval requestId o st))).
Proof. intros H. simpl. apply J_delete, J_settle, H. Qed.

Lemma handleConnectionApproval_keeps (requestId : string) (approved : bool) (st : State) :
  (J st -> J (fst (handleConnectionApproval requestId approved st)))
  /\ keeps J (snd (handleConnectionApproval requestId approved st)).
Proof.
  unfold handleConnectionApproval.
  destruct (pendingRequests st !! requestId) as [request|]; [|split; [auto | exact I]].
  destruct approved.
  - split; [auto|]. simpl. intros r st1. destruct r; [|split; [auto | exact I]].
    split; [auto|]. simpl. intros r st2. destruct r; [|split; [auto | exact I]].
    split; [|exact I]. intros _ H. simpl.
    rewrite resolveApproval_settleApproval. apply J_delete, J_settle, H.
  - split; [|exact I]. intros H.
    rewrite rejectApproval_settleApproval. apply settle_and_delete_keeps, H.
Qed.

Lemma handleTransactionApproval_keeps (requestId : string) (approved : bool) (st : State) :
  (J st -> J (fst (handleTransactionApproval requestId approved st)))
  /\ keeps J (snd (handleTransactionApproval requestId approved st)).
Proof.
  unfold handleTransactionApproval.
  destruct (pendingRequests st !! requestId) as [request|]; [|split; [auto | exact I]].
  destruct approved.
  - split; [auto|]. simpl. intros r st1.
    split; [|destruct r as [v|e]; [exact I | destruct (error_message e); exact I]].
    intros _ H. destruct r as [v|e]; simpl.
    + rewrite resolveApproval_settleApproval. apply J_delete, J_settle, H.
    + destruct (error_message e); [|exact H].
      rewrite rejectApproval_settleApproval. apply J_delete, J_settle, H.
  - split; [|exact I]. intros H.
    rewrite rejectApproval_settleApproval. apply settle_and_delete_keeps, H.
Qed.

Lemma handleMessage_keeps (msg : ExtensionMessage) (sender : MessageSender) (st : State) :
  (J st -> J (fst (handleMessage msg sender st)))
  /\ keeps J (snd (handleMessage msg sender st)).
Proof.
  destruct msg; simpl.
  - apply handleRPCRequest_keeps.
  - split; [apply J_unlock | exact I].
  - apply handleTransactionApproval_keeps.
  - apply handleTransactionApproval_keeps.
  - apply handleConnectionApproval_keeps.
  - apply handleConnectionApproval_keeps.
  - split; [auto | exact I].
Qed.

End HandlerInvariant.

(** ** The inactivity timer *)

Lemma session_reset (st : State) :
  (forall t tm, timers st !! t = Some tm -> (t < nextTimer st)%positive) ->
  (forall t tm, timers st !! t = Some tm -> callback tm = LockWalletCb ->
                sessionTimeout st = Some t) ->
  session_invariant (resetSessionTimeout st).
Proof.
  intros Hf Hs. unfold resetSessionTimeout.
  assert (Hold : forall t tm,
             (match sessionTimeout st with
              | Some t0 => delete t0 (timers st)
              | None => timers st
              end) !! t = Some tm ->
             timers st !! t = Some tm /\ sessionTimeout st <> Some t).
  { intros t tm. destruct (sessionTimeout st) as [t0|].
    - intros H. apply lookup_delete_Some in H as [Hne H]. split; [exact H | congruence].
    - intros H. split; [exact H | discriminate]. }
  destruct (sessionTimeout st) as [t0|] eqn:Es; simpl;
    (constructor; simpl;
     [ intros t tm H; apply lookup_insert_Some in H as [[<- _] | [_ H]];
       [lia | apply Hold in H as [H _]; apply Hf in H; lia]
     | intros t tm H Hc; apply lookup_insert_Some in H as [[<- _] | [Hne H]];
       [reflexivity | apply Hold in H as [H Hn]; exfalso; apply Hn; eapply Hs; eassumption]
     | intros _; eexists _, _; split; [reflexivity|]; split; [apply lookup_insert_eq | lia] ]).
Qed.

Lemma session_touch (st : State) :
  session_invariant st -> session_invariant (resetSessionTimeout st).
Proof. intros [H1 H2 _]. apply session_reset; assumption. Qed.

Lemma session_unlock (st : State) :
  session_invariant st -> session_invariant (resetSessionTimeout (set_isUnlocked true st)).
Proof. intros [H1 H2 _]. apply session_reset; assumption. Qed.

(** Steps that leave the timers, the session fields and the clock alone. *)
Lemma session_frame (st st' : State) :
  session_invariant st ->
  timers st' = timers st -> nextTimer st' = nextTimer st ->
  sessionTimeout st' = sessionTimeout st -> isUnlocked st' = isUnlocked st ->
  clock st' = clock st ->
  session_invariant st'.
Proof.
  intros [H1 H2 H3] Et En Es Eu Ec. constructor; rewrite ?Et, ?En, ?Es, ?Eu, ?Ec; assumption.
Qed.

Lemma session_pending (m : gmap string DAppRequest) (st : State) :
  session_invariant st -> session_invariant (set_pendingRequests m st).
Proof. intros H. apply (session_frame st); auto. Qed.

Lemma session_settle (requestId : string) (o : Outcome) (st : State) :
  session_invariant st -> session_invariant (settleApproval requestId o st).
Proof.
  intros H. unfold settleApproval. destruct (approvalResolvers st !! requestId); [|exact H].
  apply (session_frame st); auto.
Qed.

Lemma session_wait (requestId : string) (st : State) :
  session_invariant st ->
  session_invariant (fst (waitForApproval requestId APPROVAL_TIMEOUT_MS st)).
Proof.
  intros [H1 H2 H3]. constructor; simpl.
  - intros t tm H. apply lookup_insert_Some in H as [[<- _] | [_ H]]; [lia|].
    apply H1 in H. lia.
  - intros t tm H Hc. apply lookup_insert_Some in H as [[_ <-] | [_ H]]; [discriminate|].
    eapply H2; eassumption.
  - intros Hu. destruct (H3 Hu) as (t & d & Es & Et & Hd). exists t, d.
    split; [exact Es|]. split; [|exact Hd].
    rewrite lookup_insert_ne; [exact Et|]. apply H1 in Et. lia.
Qed.

Lemma session_timer (t : TimerId) (tm : Timer) (st : State) :
  session_invariant st -> timers st !! t = Some tm ->
  session_invariant (runTimerCallback (callback tm) (clearTimeout t st)).
Proof.
  intros [H1 H2 H3] Ht.
  assert (Hc : session_invariant (clearTimeout t st) \/ callback tm = LockWalletCb).
  { destruct (callback tm) as [|id q] eqn:Ec; [right; reflexivity|left].
    constructor; simpl.
    - intros t' tm' H. apply lookup_delete_Some in H as [_ H]. eapply H1; eassumption.
    - intros t' tm' H Hc. apply lookup_delete_Some in H as [_ H]. eapply H2; eassumption.
    - intros Hu. destruct (H3 Hu) as (ts & d & Es & Ets & Hd). exists ts, d.
      split; [exact Es|]. split; [|exact Hd].
      rewrite lookup_delete_ne; [exact Ets|]. intros <-. rewrite Ht in Ets.
      injection Ets as ->. discriminate Ec. }
  destruct (callback tm) as [|id q] eqn:Ec; simpl.
  - constructor; simpl.
    + intros t' tm' H. apply lookup_delete_Some in H as [_ H]. eapply H1; eassumption.
    + intros t' tm' H Hc'. apply lookup_delete_Some in H as [_ H]. eapply H2; eassumption.
    + discriminate.
  - destruct Hc as [Hc|Hc]; [|discriminate].
    unfold approvalTimeout. simpl. destruct (approvalResolvers st !! id); [|exact Hc].
    apply (session_frame (clearTimeout t st)); auto.
Qed.

Lemma session_clock (ms : Z) (st : State) :
  0 <= ms -> session_invariant st -> session_invariant (set_clock (clock st + ms) st).
Proof.
  intros Hms [H1 H2 H3]. constructor; simpl; try assumption.
  intros Hu. destruct (H3 Hu) as (t & d & Es & Et & Hd). exists t, d.
  split; [exact Es|]. split; [exact Et | lia].
Qed.

Lemma session_initial : session_invariant initialState.
Proof.
  constructor; simpl.
  - intros t tm H. rewrite lookup_empty in H. discriminate.
  - intros t tm H. rewrite lookup_empty in H. discriminate.
  - discriminate.
Qed.

Lemma reachable_session_invariant (es : list Event) :
  session_invariant (state (run es initialWorld)).
Proof.
  apply (run_keeps session_invariant (fun _ => True)).
  - intros msg sender st _ H.
    destruct (handleMessage_keeps session_invariant session_touch session_unlock
                (fun origin st0 => session_pending _ st0)
                (fun origin p0 st0 _ => session_pending _ st0)
                session_wait session_settle
                (fun id st0 => session_pending _ st0)
                msg sender st) as [H1 H2].
    split; [apply H1, H | exact H2].
  - intros t tm st H Ht _. apply session_timer; assumption.
  - apply session_clock.
  - intros ms st H. apply (session_frame st); auto.
  - apply Forall_forall. intros; exact I.
  - exact session_initial.
  - constructor.
Qed.

(** X1.  In every state the worker can reach from start-up, at most one
    live timer locks the wallet, and it is the one [sessionTimeout] holds:
    rearming never stacks inactivity timers. *)
Theorem at_most_one_inactivity_timer
  (es : list Event) (t1 t2 : TimerId) (tm1 tm2 : Timer) :
  timers (state (run es initialWorld)) !! t1 = Some tm1 ->
  callback tm1 = LockWalletCb ->
  timers (state (run es initialWorld)) !! t2 = Some tm2 ->
  callback tm2 = LockWalletCb ->
  t1 = t2 /\ sessionTimeout (state (run es initialWorld)) = Some t1.
Proof.
  intros H1 C1 H2 C2.
  pose proof (reachable_session_invariant es) as HI.
  pose proof (si_single _ HI t1 tm1 H1 C1) as E1.
  pose proof (si_single _ HI t2 tm2 H2 C2) as E2.
  split; [congruence | exact E1].
Qed.

Lemma at_most_one_inactivity_timer_witness :
  let es := [Message WALLET_UNLOCKED dapp; Elapse 1000;
             Message (RPC_REQUEST (mkRPCRequest GET_NETWORK JUndefined)) dapp;
             Message (RPC_REQUEST (mkRPCRequest GET_ACCOUNTS JUndefined)) dapp] in
  timers (state (run es initialWorld)) !! 3%positive = Some (mkTimer 1801000 LockWalletCb)
  /\ sessionTimeout (state (run es initialWorld)) = Some 3%positive.
Proof.
  intros es.
  assert (H : timers (state (run es initialWorld)) !! 3%positive
              = Some (mkTimer 1801000 LockWalletCb)) by (vm_compute; reflexivity).
  split; [exact H|].
  exact (proj2 (at_most_one_inactivity_timer es 3%positive 3%positive _ _
                  H eq_refl H eq_refl)).
Defined.

(** X2.  In every reachable state, an unlocked session has its inactivity
    timer live and due within thirty minutes; once that time has passed
    and the timer fires, the wallet is locked: [isUnlocked] is false,
    [walletManager.lock()] was called and the popup notified, while the
    two registries are as they were. *)
Theorem unlocked_session_locks_after_inactivity (es : list Event) :
  isUnlocked (state (run es initialWorld)) = true ->
  exists t d,
    sessionTimeout (state (run es initialWorld)) = Some t
    /\ timers (state (run es initialWorld)) !! t = Some (mkTimer d LockWalletCb)
    /\ d <= clock (state (run es initialWorld)) + SESSION_TIMEOUT_MS
    /\ let w' := run [Elapse SESSION_TIMEOUT_MS; TimerFires t] (run es initialWorld) in
       isUnlocked (state w') = false
       /\ hostCalls (state w')
          = hostCalls (state (run es initialWorld))
            ++ [walletManager_lock; sendMessage_WALLET_LOCKED]
       /\ pendingRequests (state w') = pendingRequests (state (run es initialWorld))
       /\ approvalResolvers (state w') = approvalResolvers (state (run es initialWorld)).
Proof.
  intros Hu.
  destruct (si_armed _ (reachable_session_invariant es) Hu) as (t & d & Es & Et & Hd).
  exists t, d. split; [exact Es|]. split; [exact Et|]. split; [exact Hd|].
  set (w := run es initialWorld) in *.
  unfold run at 1. simpl. rewrite Et. simpl.
  destruct (Z.leb_spec d (clock (state w) + SESSION_TIMEOUT_MS)) as [_|Hlt]; [|lia].
  rewrite wake_state. simpl. rewrite <- app_assoc. repeat split.
Qed.

Lemma unlocked_session_locks_after_inactivity_witness :
  isUnlocked (state (run [Message WALLET_UNLOCKED dapp] initialWorld)) = true
  /\ exists t d,
       sessionTimeout (state (run [Message WALLET_UNLOCKED dapp] initialWorld)) = Some t
       /\ timers (state (run [Message WALLET_UNLOCKED dapp] initialWorld)) !! t
          = Some (mkTimer d LockWalletCb).
Proof.
  split; [reflexivity|].
  destruct (unlocked_session_locks_after_inactivity [Message WALLET_UNLOCKED dapp] eq_refl)
    as (t & d & H1 & H2 & _).
  exists t, d. split; assumption.
Defined.

(** ** The waiter registry *)

Lemma filter_none_length (p : PromiseId) (l : list (PromiseId * Outcome)) :
  (forall q o, (q, o) ∈ l -> q <> p) ->
  length (filter (fun x => x.1 = p) l) = 0%nat.
Proof.
  induction l as [|[q o] l IH]; intros H; [reflexivity|].
  rewrite filter_cons. simpl. destruct (decide (q = p)) as [E|_].
  - exfalso. apply (H q o); [left | exact E].
  - apply IH. intros q' o' Hin. apply (H q' o'). right. exact Hin.
Qed.

Lemma settle_count_fresh (p : PromiseId) (st : State) :
  (forall q o, (q, o) ∈ settlements st -> (q < nextPromise st)%nat) ->
  (nextPromise st <= p)%nat ->
  settle_count p st = 0%nat.
Proof.
  intros H Hp. apply filter_none_length. intros q o Hin. apply H in Hin. lia.
Qed.

(** Steps that leave the waiter registry, the settlements and the promise
    counter alone and add no timeout closure. *)
Lemma waiter_frame (st st' : State) :
  waiter_invariant st ->
  approvalResolvers st' = approvalResolvers st ->
  settlements st' = settlements st ->
  nextPromise st' = nextPromise st ->
  (forall t tm id q,
     timers st' !! t = Some tm -> callback tm = ApprovalTimeoutCb id q ->
     exists t0 tm0, timers st !! t0 = Some tm0 /\ callback tm0 = ApprovalTimeoutCb id q) ->
  waiter_invariant st'.
Proof.
  intros [H1 H2 H3 H4 H5] Ea Es En Ht.
  constructor; unfold settle_count; rewrite ?Ea, ?Es, ?En; try assumption.
  intros t tm id q Htm Hc. destruct (Ht t tm id q Htm Hc) as (t0 & tm0 & Ht0 & Hc0).
  exact (H3 t0 tm0 id q Ht0 Hc0).
Qed.

Lemma waiter_same_timers (st st' : State) :
  waiter_invariant st ->
  approvalResolvers st' = approvalResolvers st ->
  settlements st' = settlements st ->
  nextPromise st' = nextPromise st ->
  timers st' = timers st ->
  waiter_invariant st'.
Proof.
  intros H Ea Es En Et. apply (waiter_frame st); try assumption.
  intros t tm id q Htm Hc. rewrite Et in Htm. eauto.
Qed.

Lemma waiter_pending (m : gmap string DAppRequest) (st : State) :
  waiter_invariant st -> waiter_invariant (set_pendingRequests m st).
Proof. intros H. apply (waiter_same_timers st); auto. Qed.

Lemma waiter_reset (st st0 : State) :
  waiter_invariant st0 ->
  approvalResolvers st = approvalResolvers st0 ->
  settlements st = settlements st0 ->
  nextPromise st = nextPromise st0 ->
  timers st = timers st0 ->
  waiter_invariant (resetSessionTimeout st).
Proof.
  intros H Ea Es En Et. apply (waiter_frame st0); try assumption.
  - unfold resetSessionTimeout. destruct (sessionTimeout st); exact Ea.
  - unfold resetSessionTimeout. destruct (sessionTimeout st); exact Es.
  - unfold resetSessionTimeout. destruct (sessionTimeout st); exact En.
  - intros t tm id q Htm Hc. unfold resetSessionTimeout in Htm.
    destruct (sessionTimeout st) as [t0|]; simpl in Htm;
      apply lookup_insert_Some in Htm as [[_ <-] | [_ Htm]]; try discriminate Hc.
    + apply lookup_delete_Some in Htm as [_ Htm]. rewrite Et in Htm. eauto.
    + rewrite Et in Htm. eauto.
Qed.

(** Invoking the continuations of [q], which is registered under no id
    but [requestId], and removing the entry under [requestId]. *)
Lemma waiter_after_settle (requestId : string) (q : PromiseId) (o : Outcome) (st : State) :
  waiter_invariant st ->
  (q < nextPromise st)%nat ->
  (forall id', approvalResolvers st !! id' = Some q -> id' = requestId) ->
  waiter_invariant
    (set_approvalResolvers (delete requestId (approvalResolvers st)) (settle q o st)).
Proof.
  intros [H1 H2 H3 H4 H5] Hq Hid. constructor; simpl.
  - intros id p H. apply lookup_delete_Some in H as [_ H]. eapply H1; eassumption.
  - intros q0 o0 H. apply elem_of_app in H as [H | H]; [eapply H2; eassumption|].
    apply list_elem_of_singleton in H. injection H as -> _. exact Hq.
  - intros t tm id q0 Htm Hc. destruct (H3 t tm id q0 Htm Hc) as [Hlt Hu].
    split; [exact Hlt|]. intros id' H. apply lookup_delete_Some in H as [_ H]. auto.
  - intros id1 id2 p Ha Hb.
    apply lookup_delete_Some in Ha as [_ Ha]. apply lookup_delete_Some in Hb as [_ Hb].
    eapply H4; eassumption.
  - intros id p H. apply lookup_delete_Some in H as [Hne H].
    change (settle_count p (settle q o st) = 0%nat). rewrite settle_count_settle.
    rewrite (H5 id p H). destruct (decide (q = p)) as [->|_]; [|reflexivity].
    exfalso. apply Hne. symmetry. apply Hid. exact H.
Qed.

Lemma waiter_settle (requestId : string) (o : Outcome) (st : State) :
  waiter_invariant st -> waiter_invariant (settleApproval requestId o st).
Proof.
  intros H. unfold settleApproval.
  destruct (approvalResolvers st !! requestId) as [p|] eqn:Ep; [|exact H].
  apply waiter_after_settle; [exact H | exact (wi_registered _ H _ _ Ep) |].
  intros id' Hp. exact (wi_one_id _ H _ _ _ Hp Ep).
Qed.

Lemma waiter_wait (requestId : string) (st : State) :
  waiter_invariant st ->
  waiter_invariant (fst (waitForApproval requestId APPROVAL_TIMEOUT_MS st)).
Proof.
  intros [H1 H2 H3 H4 H5]. constructor; simpl.
  - intros id p H. apply lookup_insert_Some in H as [[_ <-] | [_ H]]; [lia|].
    apply H1 in H. lia.
  - intros q o H. apply H2 in H. lia.
  - intros t tm id q Htm Hc. apply lookup_insert_Some in Htm as [[_ <-] | [_ Htm]].
    + injection Hc as <- <-. split; [lia|].
      intros id' H. apply lookup_insert_Some in H as [[E _] | [_ H]]; [congruence|].
      apply H1 in H. lia.
    + destruct (H3 t tm id q Htm Hc) as [Hlt Hu]. split; [lia|].
      intros id' H. apply lookup_insert_Some in H as [[_ E] | [_ H]]; [lia | auto].
  - intros id1 id2 p Ha Hb.
    apply lookup_insert_Some in Ha as [[Ea Pa] | [_ Ha]];
      apply lookup_insert_Some in Hb as [[Eb Pb] | [_ Hb]].
    + congruence.
    + apply H1 in Hb. lia.
    + apply H1 in Ha. lia.
    + eapply H4; eassumption.
  - intros id p H. apply lookup_insert_Some in H as [[_ <-] | [_ H]].
    + apply filter_none_length. intros q o Hin. apply H2 in Hin. lia.
    + exact (H5 id p H).
Qed.

Lemma waiter_timer (t : TimerId) (tm : Timer) (st : State) :
  waiter_invariant st -> timers st !! t = Some tm ->
  waiter_invariant (runTimerCallback (callback tm) (clearTimeout t st)).
Proof.
  intros H Ht.
  assert (Hc : waiter_invariant (clearTimeout t st)).
  { apply (waiter_frame st); auto. intros t' tm' id q Htm Hcb. simpl in Htm.
    apply lookup_delete_Some in Htm as [_ Htm]. eauto. }
  destruct (callback tm) as [|id q] eqn:Ec; simpl.
  - apply (waiter_same_timers (clearTimeout t st)); auto.
  - destruct (wi_closure _ H t tm id q Ht Ec) as [Hlt Hu].
    unfold approvalTimeout. simpl.
    destruct (approvalResolvers st !! id) as [q'|]; [|exact Hc].
    exact (waiter_after_settle id q _ (clearTimeout t st) Hc Hlt Hu).
Qed.

Lemma waiter_initial : waiter_invariant initialState.
Proof.
  constructor; simpl.
  - intros id p H. rewrite lookup_empty in H. discriminate.
  - intros q o H. apply elem_of_nil in H. contradiction.
  - intros t tm id q H. rewrite lookup_empty in H. discriminate.
  - intros id1 id2 p H. rewrite lookup_empty in H. discriminate.
  - intros id p H. rewrite lookup_empty in H. discriminate.
Qed.

Lemma reachable_waiter_invariant (es : list Event) :
  waiter_invariant (state (run es initialWorld)).
Proof.
  apply (run_keeps waiter_invariant (fun _ => True)).
  - intros msg sender st _ H.
    destruct (handleMessage_keeps waiter_invariant
                (fun st0 H0 => waiter_reset st0 st0 H0 eq_refl eq_refl eq_refl eq_refl)
                (fun st0 H0 => waiter_reset (set_isUnlocked true st0) st0 H0
                                 eq_refl eq_refl eq_refl eq_refl)
                (fun origin st0 => waiter_pending _ st0)
                (fun origin p0 st0 _ => waiter_pending _ st0)
                waiter_wait waiter_settle
                (fun id st0 => waiter_pending _ st0)
                msg sender st) as [H1 H2].
    split; [apply H1, H | exact H2].
  - intros t tm st H Ht _. apply waiter_timer; assumption.
  - intros ms st _ H. apply (waiter_same_timers st); auto.
  - intros ms st H. apply (waiter_same_timers st); auto.
  - apply Forall_forall. intros; exact I.
  - exact waiter_initial.
  - constructor.
Qed.

(** X3.  In every reachable state, a promise that is registered in
    [approvalResolvers] has had none of its continuations invoked, and it
    is registered under that one id only: a decision that finds a waiter
    is the first settlement of that waiter's promise. *)
Theorem registered_waiter_is_unsettled (es : list Event) (requestId : string) (p : PromiseId) :
  approvalResolvers (state (run es initialWorld)) !! requestId = Some p ->
  settle_count p (state (run es initialWorld)) = 0%nat
  /\ settlement_of p (settlements (state (run es initialWorld))) = None
  /\ forall id', approvalResolvers (state (run es initialWorld)) !! id' = Some p ->
       id' = requestId.
Proof.
  intros H. pose proof (reachable_waiter_invariant es) as HI.
  pose proof (wi_unsettled _ HI _ _ H) as Hc.
  split; [exact Hc|]. split.
  - unfold settle_count in Hc. revert Hc.
    induction (settlements (state (run es initialWorld))) as [|[q o] l IH];
      [reflexivity|].
    rewrite filter_cons. simpl. destruct (decide (q = p)) as [->|Hne]; [discriminate|].
    intros Hc. apply Nat.eqb_neq in Hne. rewrite Hne. apply IH, Hc.
  - intros id' H'. exact (wi_one_id _ HI _ _ _ H' H).
Qed.

Lemma registered_waiter_is_unsettled_witness :
  approvalResolvers (state (run txPendingEvents initialWorld)) !! "tx_1000" = Some 0%nat
  /\ settle_count 0%nat (state (run txPendingEvents initialWorld)) = 0%nat.
Proof.
  assert (H : approvalResolvers (state (run txPendingEvents initialWorld)) !! "tx_1000"
              = Some 0%nat) by (vm_compute; reflexivity).
  split; [exact H|].
  exact (proj1 (registered_waiter_is_unsettled txPendingEvents "tx_1000" 0%nat H)).
Defined.

(** ** The pending-request registry *)

Lemma pending_same (st st' : State) :
  pending_invariant st ->
  pendingRequests st' = pendingRequests st ->
  pending_invariant st'.
Proof. unfold pending_invariant. intros H ->. exact H. Qed.

Lemma pending_touch (st : State) :
  pending_invariant st -> pending_invariant (resetSessionTimeout st).
Proof.
  intros H. apply (pending_same st); [exact H|].
  unfold resetSessionTimeout; destruct (sessionTimeout st); reflexivity.
Qed.

Lemma pending_unlock (st : State) :
  pending_invariant st -> pending_invariant (resetSessionTimeout (set_isUnlocked true st)).
Proof. intros H. apply pending_touch. exact H. Qed.

Lemma pending_register_connect (origin : string) (st : State) :
  pending_invariant st ->
  pending_invariant
    (set_pendingRequests
       (<["connect_" +:+ pretty (clock st) :=
            mkDAppRequest ("connect_" +:+ pretty (clock st)) origin REQUEST_ACCOUNTS
              (JObject []) (secondDateNow st)]> (pendingRequests st)) st).
Proof.
  intros H. unfold pending_invariant. simpl. apply map_Forall_insert_2; [|exact H].
  split; [reflexivity|]. left. split; [reflexivity|]. split; [|reflexivity].
  exists (clock st). reflexivity.
Qed.

Lemma pending_register_tx (origin : string) (params0 : JSValue) (st : State) :
  invalidTransactionParams params0 = Some false ->
  pending_invariant st ->
  pending_invariant
    (set_pendingRequests
       (<["tx_" +:+ pretty (clock st) :=
            mkDAppRequest ("tx_" +:+ pretty (clock st)) origin SEND_TRANSACTION
              params0 (secondDateNow st)]> (pendingRequests st)) st).
Proof.
  intros Hv H. unfold pending_invariant. simpl. apply map_Forall_insert_2; [|exact H].
  split; [reflexivity|]. right. split; [reflexivity|]. split; [|exact Hv].
  exists (clock st). reflexivity.
Qed.

Lemma pending_wait (requestId : string) (st : State) :
  pending_invariant st ->
  pending_invariant (fst (waitForApproval requestId APPROVAL_TIMEOUT_MS st)).
Proof. intros H. apply (pending_same st); auto. Qed.

Lemma pending_settle (requestId : string) (o : Outcome) (st : State) :
  pending_invariant st -> pending_invariant (settleApproval requestId o st).
Proof.
  intros H. unfold settleApproval. destruct (approvalResolvers st !! requestId); [|exact H].
  apply (pending_same st); auto.
Qed.

Lemma pending_delete (requestId : string) (st : State) :
  pending_invariant st ->
  pending_invariant (set_pendingRequests (delete requestId (pendingRequests st)) st).
Proof. unfold pending_invariant. simpl. apply map_Forall_delete. Qed.

Lemma pending_timer (t : TimerId) (tm : Timer) (st : State) :
  pending_invariant st ->
  pending_invariant (runTimerCallback (callback tm) (clearTimeout t st)).
Proof.
  intros H. destruct (callback tm) as [|id q]; simpl.
  - apply (pending_same st); auto.
  - unfold approvalTimeout. simpl. destruct (approvalResolvers st !! id);
      apply (pending_same st); auto.
Qed.

Lemma reachable_pending_invariant (es : list Event) :
  pending_invariant (state (run es initialWorld)).
Proof.
  apply (run_keeps pending_invariant (fun _ => True)).
  - intros msg sender st _ H.
    destruct (handleMessage_keeps pending_invariant pending_touch pending_unlock
                pending_register_connect pending_register_tx pending_wait pending_settle
                pending_delete msg sender st) as [H1 H2].
    split; [apply H1, H | exact H2].
  - intros t tm st H _ _. apply pending_timer. exact H.
  - intros ms st _ H. apply (pending_same st); auto.
  - intros ms st H. apply (pending_same st); auto.
  - apply Forall_forall. intros; exact I.
  - unfold pending_invariant. simpl. apply map_Forall_empty.
  - constructor.
Qed.

(** X4.  In every reachable state, each entry of [pendingRequests] is
    stored under its own id; the id is [connect_] or [tx_], according to
    the entry's method, followed by the decimal rendering of an integer
    (the clock reading of its registration); a connection request has
    empty params and a transaction request has params with a truthy [to]
    and a defined [amount].  Nothing is said of the timestamp, which is a
    later read of the clock than the one in the id. *)
Theorem pending_requests_wellformed (es : list Event) (key : string) (r : DAppRequest) :
  pendingRequests (state (run es initialWorld)) !! key = Some r ->
  req_id r = key
  /\ ((req_method r = REQUEST_ACCOUNTS
       /\ (exists t : Z, key = "connect_" +:+ pretty t)
       /\ req_params r = JObject [])
      \/ (req_method r = SEND_TRANSACTION
          /\ (exists t : Z, key = "tx_" +:+ pretty t)
          /\ exists to amount,
               get_prop (req_params r) "to" = Some to /\ truthy to = true
               /\ get_prop (req_params r) "amount" = Some amount
               /\ amount <> JUndefined)).
Proof.
  intros H. destruct (reachable_pending_invariant es key r H) as (H1 & H3).
  split; [exact H1|].
  destruct H3 as [H3 | (Hm & Hk & Hv)]; [left; exact H3|]. right.
  split; [exact Hm|]. split; [exact Hk|].
  unfold invalidTransactionParams in Hv.
  destruct (get_prop (req_params r) "to") as [to|]; [|discriminate].
  destruct (truthy to) eqn:Et; simpl in Hv; [|discriminate].
  destruct (get_prop (req_params r) "amount") as [amount|]; [|discriminate].
  exists to, amount. repeat split; try assumption.
  intros ->. discriminate Hv.
Qed.

Lemma pending_requests_wellformed_witness :
  pendingRequests (state (run txPendingEvents initialWorld)) !! "tx_1000" = Some txRequest
  /\ req_id txRequest = "tx_1000".
Proof.
  assert (H : pendingRequests (state (run txPendingEvents initialWorld)) !! "tx_1000"
              = Some txRequest) by (vm_compute; reflexivity).
  split; [exact H|].
  exact (proj1 (pending_requests_wellformed txPendingEvents "tx_1000" txRequest H)).
Defined.

(** The timestamp of an entry need not be the reading in its id: with a
    millisecond passing between the two reads of [Date.now()], the request
    registered under [tx_1000] carries the timestamp 1001. *)
Example timestamp_is_a_later_read :
  let w := run [Message WALLET_UNLOCKED dapp; Elapse 1000; Drift 1;
                Message (RPC_REQUEST (mkRPCRequest SEND_TRANSACTION validTx)) dapp;
                Completes 1 (Fulfilled (JBool true))] initialWorld in
  pendingRequests (state w) !! "tx_1000"
  = Some (mkDAppRequest "tx_1000" "https://dapp.example" SEND_TRANSACTION validTx 1001).
Proof. vm_compute. reflexivity. Qed.

(** ** A locked session *)

Lemma locked_settle (pr : gmap string DAppRequest) (ar : gmap string PromiseId)
  (requestId : string) (o : Outcome) (st : State) :
  locked_within pr ar st -> locked_within pr ar (settleApproval requestId o st).
Proof.
  intros (H1 & H2 & H3). unfold settleApproval.
  destruct (approvalResolvers st !! requestId); [|repeat split; assumption].
  repeat split; simpl; try assumption.
  transitivity (approvalResolvers st); [apply delete_subseteq | exact H3].
Qed.

Lemma locked_delete (pr : gmap string DAppRequest) (ar : gmap string PromiseId)
  (requestId : string) (st : State) :
  locked_within pr ar st ->
  locked_within pr ar (set_pendingRequests (delete requestId (pendingRequests st)) st).
Proof.
  intros (H1 & H2 & H3). repeat split; simpl; try assumption.
  transitivity (pendingRequests st); [apply delete_subseteq | exact H2].
Qed.

Lemma locked_touch (pr : gmap string DAppRequest) (ar : gmap string PromiseId) (st : State) :
  locked_within pr ar st -> locked_within pr ar (resetSessionTimeout st).
Proof.
  intros (H1 & H2 & H3). unfold resetSessionTimeout.
  destruct (sessionTimeout st); repeat split; assumption.
Qed.

Lemma locked_message (pr : gmap string DAppRequest) (ar : gmap string PromiseId)
  (msg : ExtensionMessage) (sender : MessageSender) (st : State) :
  no_unlock (Message msg sender) = true ->
  locked_within pr ar st ->
  locked_within pr ar (fst (handleMessage msg sender st))
  /\ keeps (locked_within pr ar) (snd (handleMessage msg sender st)).
Proof.
  intros Hok H. destruct msg; simpl; try discriminate Hok.
  - unfold handleRPCRequest. destruct (sender_origin sender) as [origin|];
      [|split; [exact H | exact I]].
    unfold dispatch. destruct H as (Hl & Hp & Ha). rewrite Hl. simpl.
    destruct (method data); simpl; try (split; [repeat split; assumption | exact I]).
    split; [apply locked_touch; repeat split; assumption|].
    intros r st1. destruct r; split; auto; exact I.
  - destruct (handleTransactionApproval_keeps (locked_within pr ar)
                (locked_settle pr ar) (locked_delete pr ar) requestId true st); auto.
  - destruct (handleTransactionApproval_keeps (locked_within pr ar)
                (locked_settle pr ar) (locked_delete pr ar) requestId false st); auto.
  - destruct (handleConnectionApproval_keeps (locked_within pr ar)
                (locked_settle pr ar) (locked_delete pr ar) requestId true st); auto.
  - destruct (handleConnectionApproval_keeps (locked_within pr ar)
                (locked_settle pr ar) (locked_delete pr ar) requestId false st); auto.
  - split; [exact H | exact I].
Qed.

Lemma locked_timer (pr : gmap string DAppRequest) (ar : gmap string PromiseId)
  (t : TimerId) (tm : Timer) (st : State) :
  locked_within pr ar st ->
  locked_within pr ar (runTimerCallback (callback tm) (clearTimeout t st)).
Proof.
  intros (H1 & H2 & H3). destruct (callback tm) as [|id q]; simpl.
  - repeat split; assumption.
  - unfold approvalTimeout. simpl.
    destruct (approvalResolvers st !! id); repeat split; simpl; try assumption.
    transitivity (approvalResolvers st); [apply delete_subseteq | exact H3].
Qed.

(** X5.  Only an unlock message unlocks, and a locked session registers
    nothing.  From a locked state in which every handler in flight is a
    caller suspended on an approval promise, any sequence of events
    without [WALLET_UNLOCKED] (RPC requests, approvals and rejections,
    collaborator answers, timers, clock ticks) leaves the session locked
    and adds no entry to [pendingRequests] or [approvalResolvers]. *)
Theorem locked_session_registers_nothing (w : World) (es : list Event) :
  isUnlocked (state w) = false ->
  Forall (fun ta => exists q, ta.2 = ReturnPromise q) (tasks w) ->
  Forall (fun e => no_unlock e = true) es ->
  isUnlocked (state (run es w)) = false
  /\ pendingRequests (state (run es w)) ⊆ pendingRequests (state w)
  /\ approvalResolvers (state (run es w)) ⊆ approvalResolvers (state w).
Proof.
  intros Hl Hts Hes.
  apply (run_keeps (locked_within (pendingRequests (state w)) (approvalResolvers (state w)))
           (fun e => no_unlock e = true)).
  - intros msg sender st. apply locked_message.
  - intros t tm st H _ _. apply locked_timer. exact H.
  - intros ms st _ (H1 & H2 & H3). repeat split; assumption.
  - intros ms st (H1 & H2 & H3). repeat split; assumption.
  - exact Hes.
  - repeat split; [exact Hl | reflexivity | reflexivity].
  - eapply Forall_impl; [exact Hts|]. intros [c a] [q ->]. exact I.
Qed.

Lemma locked_session_registers_nothing_witness :
  let w := run [Elapse 1800000; TimerFires 2] txPendingWorld in
  let es := [Message (RPC_REQUEST (mkRPCRequest SEND_TRANSACTION otherTx)) otherDapp;
             Completes 2 (Fulfilled (JBool true));
             Message (TRANSACTION_REJECTED "tx_1000") dapp] in
  isUnlocked (state w) = false
  /\ isUnlocked (state (run es w)) = false
  /\ pendingRequests (state (run es w)) ⊆ pendingRequests (state w).
Proof.
  intros w es.
  assert (Hl : isUnlocked (state w) = false) by (vm_compute; reflexivity).
  assert (Hts : Forall (fun ta => exists q, ta.2 = ReturnPromise q) (tasks w)).
  { assert (E : tasks w = [(1%nat, ReturnPromise 0%nat)]) by (vm_compute; reflexivity).
    rewrite E. constructor; [exists 0%nat; reflexivity | constructor]. }
  assert (Hes : Forall (fun e => no_unlock e = true) es) by (repeat constructor).
  destruct (locked_session_registers_nothing w es Hl Hts Hes) as (H1 & H2 & _).
  split; [exact Hl|]. split; [exact H1 | exact H2].
Defined.

(** ** The race on a registered request *)


(** ** The waiting primitive *)

(** X7.  [waitForApproval] registers a fresh promise under the id and arms
    a timer for it, due [timeout] ms from now.  Whichever of
    [resolveApproval] and the timeout comes first invokes the promise's
    continuation and removes the waiter; after it, the timeout,
    [resolveApproval] and [rejectApproval] for that id all leave the state
    as it is. *)
Theorem waiter_first_decision_wins
  (requestId : string) (timeout : Z) (value : JSValue) (st : State) :
  let st1 := fst (waitForApproval requestId timeout st) in
  let p := snd (waitForApproval requestId timeout st) in
  p = nextPromise st
  /\ approvalResolvers st1 !! requestId = Some p
  /\ timers st1 !! nextTimer st
     = Some (mkTimer (clock st + timeout) (ApprovalTimeoutCb requestId p))
  /\ (let st2 := resolveApproval requestId value st1 in
      settlements st2 = settlements st ++ [(p, Fulfilled value)]
      /\ approvalResolvers st2 = delete requestId (approvalResolvers st)
      /\ approvalTimeout requestId p st2 = st2
      /\ (forall v, resolveApproval requestId v st2 = st2)
      /\ (forall e, rejectApproval requestId e st2 = st2))
  /\ (let st2 := approvalTimeout requestId p st1 in
      settlements st2
      = settlements st
        ++ [(p, Rejected (ThrownRPC (mkRPCError USER_REJECTED "Request timeout")))]
      /\ approvalResolvers st2 = delete requestId (approvalResolvers st)
      /\ (forall v, resolveApproval requestId v st2 = st2)
      /\ (forall e, rejectApproval requestId e st2 = st2)).
Proof.
  simpl.
  assert (Hin : (<[requestId := nextPromise st]> (approvalResolvers st)) !! requestId
                = Some (nextPromise st)) by apply lookup_insert_eq.
  assert (Hdel : forall m : gmap string PromiseId,
             delete requestId (<[requestId := nextPromise st]> m) !! requestId = None)
    by (intros m; apply lookup_delete_eq).
  split; [reflexivity|]. split; [exact Hin|]. split; [apply lookup_insert_eq|].
  split.
  - unfold resolveApproval at 1 2. simpl. rewrite Hin. simpl.
    split; [reflexivity|]. split; [apply delete_insert_eq|].
    unfold approvalTimeout, resolveApproval, rejectApproval. simpl.
    rewrite Hin. simpl. rewrite Hdel. repeat split.
  - unfold approvalTimeout at 1 2. simpl. rewrite Hin. simpl.
    split; [reflexivity|]. split; [apply delete_insert_eq|].
    unfold approvalTimeout, resolveApproval, rejectApproval. simpl.
    rewrite Hin. simpl. rewrite Hdel. repeat split.
Qed.

(** ** Answers that need no consent *)

(** X8.  [request_accounts] from an origin the store reports connected
    never registers anything: after the authorization query the handler
    reads the current wallet and returns [[wallet.address]], or [[]] when
    there is no wallet; the state is untouched at every step and a failing
    wallet query is rethrown. *)
Theorem request_accounts_connected (origin : string) (isConnected : JSValue) (st st1 : State) :
  truthy isConnected = true ->
  fst (handleRequestAccounts origin st) = st
  /\ awaits (snd (handleRequestAccounts origin st)) = Some (isOriginConnected origin)
  /\ (let r1 := resume (snd (handleRequestAccounts origin st)) (Fulfilled isConnected) st1 in
      fst r1 = st1
      /\ awaits (snd r1) = Some getCurrentWallet
      /\ (forall wallet st2,
            resume (snd r1) (Fulfilled wallet) st2 = (st2, Return (accountsOf wallet)))
      /\ (forall e st2, resume (snd r1) (Rejected e) st2 = (st2, Throw e)))
  /\ (forall wallet, truthy wallet = false -> accountsOf wallet = JArray [])
  /\ (forall fields, accountsOf (JObject fields) = JArray [assoc "address" fields]).
Proof.
  intros Hc. split; [reflexivity|]. split; [reflexivity|]. split.
  - simpl. rewrite Hc. simpl. repeat split.
  - split.
    + intros wallet Hw. unfold accountsOf. rewrite Hw. reflexivity.
    + intros fields. reflexivity.
Qed.

Lemma request_accounts_connected_witness :
  truthy (JBool true) = true
  /\ forall wallet st2,
       resume (snd (resume (snd (handleRequestAccounts "https://dapp.example" unlockedState))
                      (Fulfilled (JBool true)) unlockedState))
         (Fulfilled wallet) st2
       = (st2, Return (accountsOf wallet)).
Proof.
  split; [reflexivity|].
  destruct (request_accounts_connected "https://dapp.example" (JBool true)
              unlockedState unlockedState eq_refl) as (_ & _ & (_ & _ & H & _) & _).
  exact H.
Defined.

(** X9.  [get_accounts] answers an origin that is not connected with [[]]
    without reading the wallet, and a connected one with the wallet's
    address (or [[]]); it changes no state. *)
Theorem get_accounts_answers (origin : string) (isConnected : JSValue) (st st1 : State) :
  fst (handleGetAccounts origin st) = st
  /\ awaits (snd (handleGetAccounts origin st)) = Some (isOriginConnected origin)
  /\ (truthy isConnected = false ->
      resume (snd (handleGetAccounts origin st)) (Fulfilled isConnected) st1
      = (st1, Return (JArray [])))
  /\ (truthy isConnected = true ->
      let r1 := resume (snd (handleGetAccounts origin st)) (Fulfilled isConnected) st1 in
      fst r1 = st1
      /\ awaits (snd r1) = Some getCurrentWallet
      /\ forall wallet st2,
           resume (snd r1) (Fulfilled wallet) st2 = (st2, Return (accountsOf wallet))).
Proof.
  split; [reflexivity|]. split; [reflexivity|]. split.
  - intros Hc. simpl. rewrite Hc. reflexivity.
  - intros Hc. simpl. rewrite Hc. simpl. repeat split.
Qed.

Lemma get_accounts_answers_witness :
  truthy (JBool false) = false
  /\ resume (snd (handleGetAccounts "https://dapp.example" unlockedState))
       (Fulfilled (JBool false)) unlockedState
     = (unlockedState, Return (JArray [])).
Proof.
  split; [reflexivity|].
  destruct (get_accounts_answers "https://dapp.example" (JBool false)
              unlockedState unlockedState) as (_ & _ & H & _).
  exact (H eq_refl).
Defined.

(** X10.  The order of the checks of [send_transaction]: an origin that is
    not connected is refused with [{UNAUTHORIZED, 'Origin not connected'}]
    whatever the params are, valid or not; for a connected origin, params
    that are [null] or [undefined] make the validation itself throw a
    [TypeError].  Neither case changes the state. *)
Theorem send_transaction_checks_order
  (origin : string) (params0 isConnected : JSValue) (st st1 : State) :
  (truthy isConnected = false ->
   resume (snd (handleSendTransaction origin params0 st)) (Fulfilled isConnected) st1
   = (st1, Throw (ThrownRPC (mkRPCError UNAUTHORIZED "Origin not connected"))))
  /\ (truthy isConnected = true ->
      get_prop params0 "to" = None ->
      exists msg,
        resume (snd (handleSendTransaction origin params0 st)) (Fulfilled isConnected) st1
        = (st1, Throw (ThrownTypeError msg))).
Proof.
  split.
  - intros Hc. simpl. rewrite Hc. reflexivity.
  - intros Hc Hp. simpl. rewrite Hc. simpl.
    unfold invalidTransactionParams. rewrite Hp. eexists. reflexivity.
Qed.

Lemma send_transaction_checks_order_witness :
  truthy (JBool false) = false
  /\ resume (snd (handleSendTransaction "https://dapp.example" noDestinationTx unlockedState))
       (Fulfilled (JBool false)) unlockedState
     = (unlockedState, Throw (ThrownRPC (mkRPCError UNAUTHORIZED "Origin not connected"))).
Proof.
  split; [reflexivity|].
  exact (proj1 (send_transaction_checks_order "https://dapp.example" noDestinationTx
                  (JBool false) unlockedState unlockedState) eq_refl).
Defined.

(** X11.  [get_balance] on params other than [null] and [undefined] with a
    truthy address asks the Authority for the balance of that address and
    returns what it answers; a failure of the Authority is rethrown as it
    is, not wrapped in an RPC error.  On [null] or [undefined] params the
    destructuring throws a [TypeError] and the Authority is not asked. *)
Theorem get_balance_outcomes (params0 : JSValue) (st : State) :
  (forall address,
     get_prop params0 "address" = Some address -> truthy address = true ->
     fst (handleGetBalance params0 st) = st
     /\ awaits (snd (handleGetBalance params0 st)) = Some (walletManager_getBalance address)
     /\ (forall balance st1,
           resume (snd (handleGetBalance params0 st)) (Fulfilled balance) st1
           = (st1, Return balance))
     /\ (forall e st1,
           resume (snd (handleGetBalance params0 st)) (Rejected e) st1 = (st1, Throw e)))
  /\ (get_prop params0 "address" = None ->
      exists msg, handleGetBalance params0 st = (st, Throw (ThrownTypeError msg))).
Proof.
  split.
  - intros address Hp Ha. unfold handleGetBalance. rewrite Hp, Ha. simpl. repeat split.
  - intros Hp. unfold handleGetBalance. rewrite Hp. eexists. reflexivity.
Qed.

Lemma get_balance_outcomes_witness :
  get_prop (JObject [("address", JString "hoosat:qq")]) "address" = Some (JString "hoosat:qq")
  /\ truthy (JString "hoosat:qq") = true
  /\ awaits (snd (handleGetBalance (JObject [("address", JString "hoosat:qq")]) unlockedState))
     = Some (walletManager_getBalance (JString "hoosat:qq")).
Proof.
  split; [reflexivity|]. split; [reflexivity|].
  destruct (get_balance_outcomes (JObject [("address", JString "hoosat:qq")]) unlockedState)
    as [H _].
  destruct (H (JString "hoosat:qq") eq_refl eq_refl) as (_ & Ha & _).
  exact Ha.
Defined.

(** X12.  [get_network] is the one exemption from the session lock.  In a
    locked session a dispatch fails with [{UNAUTHORIZED, 'Wallet is
    locked'}] exactly when its method is not [get_network]; a
    [get_network] dispatch, for any origin and params, asks the Authority
    for the network and returns its answer, or rethrows its failure. *)
Theorem get_network_is_the_only_exemption
  (request : RPCRequest) (origin : string) (st : State) :
  isUnlocked st = false ->
  (snd (dispatch request origin st)
   = Throw (ThrownRPC (mkRPCError UNAUTHORIZED "Wallet is locked"))
   <-> method request <> GET_NETWORK)
  /\ (method request = GET_NETWORK ->
      awaits (snd (dispatch request origin st)) = Some walletManager_getNetwork
      /\ (forall network st1,
            resume (snd (dispatch request origin st)) (Fulfilled network) st1
            = (st1, Return network))
      /\ (forall e st1,
            resume (snd (dispatch request origin st)) (Rejected e) st1 = (st1, Throw e))).
Proof.
  intros Hl. split; [split|].
  - intros H Hm. unfold dispatch in H. rewrite Hl, Hm in H. simpl in H. discriminate H.
  - intros Hm. unfold dispatch. rewrite Hl.
    destruct (method request); try reflexivity. congruence.
  - intros Hm. unfold dispatch. rewrite Hl, Hm. simpl. repeat split.
Qed.

Lemma get_network_is_the_only_exemption_witness :
  isUnlocked initialState = false
  /\ awaits (snd (dispatch (mkRPCRequest GET_NETWORK JUndefined) "https://dapp.example"
                    initialState))
     = Some walletManager_getNetwork.
Proof.
  split; [reflexivity|].
  exact (proj1 (proj2 (get_network_is_the_only_exemption
                         (mkRPCRequest GET_NETWORK JUndefined) "https://dapp.example"
                         initialState eq_refl) eq_refl)).
Defined.

(** ** Registration *)

(** X13.  When the prompt has been shown (both prompt calls fulfilled), a
    consent-requiring handler calls [waitForApproval] with the id it
    registered the pending request under: on the state [st3] of that
    moment a fresh promise is registered under the id, a timer for it is
    armed, due five minutes later, the pending-request registry is left as
    it is, and the handler returns that promise, so the caller stays
    suspended.  The id is fixed when the authorization query answers
    (clock of [st1]), not when the prompt returns. *)
Theorem registration_suspends_caller
  (origin : string) (params0 isConnected v2 v3 : JSValue) (st st1 st2 st3 : State) :
  (truthy isConnected = false ->
   waiter_registered_at ("connect_" +:+ pretty (clock st1)) st3
     (resume (snd (resume (snd (resume (snd (handleRequestAccounts origin st))
                                  (Fulfilled isConnected) st1))
                     (Fulfilled v2) st2))
        (Fulfilled v3) st3))
  /\ (truthy isConnected = true ->
      invalidTransactionParams params0 = Some false ->
      waiter_registered_at ("tx_" +:+ pretty (clock st1)) st3
        (resume (snd (resume (snd (resume (snd (handleSendTransaction origin params0 st))
                                     (Fulfilled isConnected) st1))
                        (Fulfilled v2) st2))
           (Fulfilled v3) st3)).
Proof.
  unfold waiter_registered_at. split.
  - intros Hc. simpl. rewrite Hc. simpl. repeat split.
  - intros Hc Hv. simpl. rewrite Hc. simpl. rewrite Hv. simpl. repeat split.
Qed.

Lemma registration_suspends_caller_witness :
  truthy (JBool true) = true
  /\ invalidTransactionParams validTx = Some false
  /\ waiter_registered_at "tx_1000" (set_clock 1000 unlockedState)
       (resume (snd (resume (snd (resume (snd (handleSendTransaction "https://dapp.example"
                                                validTx unlockedState))
                                     (Fulfilled (JBool true)) (set_clock 1000 unlockedState)))
                        (Fulfilled JUndefined) (set_clock 1000 unlockedState)))
          (Fulfilled JUndefined) (set_clock 1000 unlockedState)).
Proof.
  split; [reflexivity|]. split; [reflexivity|].
  exact (proj2 (registration_suspends_caller "https://dapp.example" validTx (JBool true)
                  JUndefined JUndefined unlockedState (set_clock 1000 unlockedState)
                  (set_clock 1000 unlockedState) (set_clock 1000 unlockedState))
           eq_refl eq_refl).
Defined.

(** ** Decisions *)

(** X14.  Approving a pending connection request that has a waiter: the
    handler records the request's origin with [addConnectedSite], reads
    the current wallet, invokes the waiter's [resolve] once with the
    accounts list, removes waiter and pending request, and returns
    [{success: true}].  The request's method is not looked at. *)
Theorem connection_approval_resolves_waiter
  (requestId : string) (request : DAppRequest) (p : PromiseId) (st : State) :
  pendingRequests st !! requestId = Some request ->
  fst (handleConnectionApproval requestId true st) = st
  /\ awaits (snd (handleConnectionApproval requestId true st))
     = Some (addConnectedSite (req_origin request))
  /\ forall v st1,
       let r1 := resume (snd (handleConnectionApproval requestId true st)) (Fulfilled v) st1 in
       fst r1 = st1
       /\ awaits (snd r1) = Some getCurrentWallet
       /\ forall wallet st2,
            approvalResolvers st2 !! requestId = Some p ->
            let r2 := resume (snd r1) (Fulfilled wallet) st2 in
            snd r2 = Return successObject
            /\ settlements (fst r2) = settlements st2 ++ [(p, Fulfilled (accountsOf wallet))]
            /\ approvalResolvers (fst r2) = delete requestId (approvalResolvers st2)
            /\ pendingRequests (fst r2) = delete requestId (pendingRequests st2).
Proof.
  intros Hreq. unfold handleConnectionApproval. rewrite Hreq. simpl.
  split; [reflexivity|]. split; [reflexivity|].
  intros v st1. split; [reflexivity|]. split; [reflexivity|].
  intros wallet st2 Hp. simpl. unfold resolveApproval. rewrite Hp. simpl. repeat split.
Qed.

Lemma connection_approval_resolves_waiter_witness :
  pendingRequests (state connectPendingWorld) !! "connect_1000" = Some connectRequest
  /\ awaits (snd (handleConnectionApproval "connect_1000" true (state connectPendingWorld)))
     = Some (addConnectedSite "https://dapp.example").
Proof.
  assert (Hq : pendingRequests (state connectPendingWorld) !! "connect_1000"
               = Some connectRequest) by (vm_compute; reflexivity).
  split; [exact Hq|].
  exact (proj1 (proj2 (connection_approval_resolves_waiter "connect_1000" connectRequest
                         0%nat (state connectPendingWorld) Hq))).
Defined.

(** X15.  Approving a pending transaction request that has a waiter, when
    the Authority accepts the submission: [sendTransaction] is called once
    with the request's params, the waiter's [resolve] is invoked once with
    the transaction id it returned, waiter and pending request are
    removed, and the handler returns [{success: true}]. *)
Theorem transaction_approval_resolves_waiter
  (requestId : string) (request : DAppRequest) (p : PromiseId) (st : State) :
  pendingRequests st !! requestId = Some request ->
  fst (handleTransactionApproval requestId true st) = st
  /\ awaits (snd (handleTransactionApproval requestId true st))
     = Some (walletManager_sendTransaction (req_params request))
  /\ forall txId st1,
       approvalResolvers st1 !! requestId = Some p ->
       let r := resume (snd (handleTransactionApproval requestId true st)) (Fulfilled txId) st1 in
       snd r = Return successObject
       /\ settlements (fst r) = settlements st1 ++ [(p, Fulfilled txId)]
       /\ approvalResolvers (fst r) = delete requestId (approvalResolvers st1)
       /\ pendingRequests (fst r) = delete requestId (pendingRequests st1).
Proof.
  intros Hreq. unfold handleTransactionApproval. rewrite Hreq. simpl.
  split; [reflexivity|]. split; [reflexivity|].
  intros txId st1 Hp. simpl. unfold resolveApproval. rewrite Hp. simpl. repeat split.
Qed.

Lemma transaction_approval_resolves_waiter_witness :
  pendingRequests (state txPendingWorld) !! "tx_1000" = Some txRequest
  /\ awaits (snd (handleTransactionApproval "tx_1000" true (state txPendingWorld)))
     = Some (walletManager_sendTransaction validTx).
Proof.
  assert (Hq : pendingRequests (state txPendingWorld) !! "tx_1000" = Some txRequest)
    by (vm_compute; reflexivity).
  split; [exact Hq|].
  exact (proj1 (proj2 (transaction_approval_resolves_waiter "tx_1000" txRequest
                         0%nat (state txPendingWorld) Hq))).
Defined.

(** X16.  A rejection of a pending request is processed in one step,
    without calling any collaborator: the waiter's [reject] is invoked
    once with [{USER_REJECTED, 'User rejected connection'}] (respectively
    ['User rejected transaction']), waiter and pending request are removed
    and the handler returns [{success: true}]. *)
Theorem rejection_rejects_waiter
  (requestId : string) (request : DAppRequest) (p : PromiseId) (st : State) :
  pendingRequests st !! requestId = Some request ->
  approvalResolvers st !! requestId = Some p ->
  (let r := handleConnectionApproval requestId false st in
   snd r = Return successObject
   /\ settlements (fst r)
      = settlements st
        ++ [(p, Rejected (ThrownRPC (mkRPCError USER_REJECTED "User rejected connection")))]
   /\ approvalResolvers (fst r) = delete requestId (approvalResolvers st)
   /\ pendingRequests (fst r) = delete requestId (pendingRequests st))
  /\ (let r := handleTransactionApproval requestId false st in
      snd r = Return successObject
      /\ settlements (fst r)
         = settlements st
           ++ [(p, Rejected (ThrownRPC (mkRPCError USER_REJECTED "User rejected transaction")))]
      /\ approvalResolvers (fst r) = delete requestId (approvalResolvers st)
      /\ pendingRequests (fst r) = delete requestId (pendingRequests st)).
Proof.
  intros Hreq Hp.
  unfold handleConnectionApproval, handleTransactionApproval, rejectApproval.
  rewrite Hreq, Hp. simpl. repeat split.
Qed.

Lemma rejection_rejects_waiter_witness :
  pendingRequests (state txPendingWorld) !! "tx_1000" = Some txRequest
  /\ approvalResolvers (state txPendingWorld) !! "tx_1000" = Some 0%nat
  /\ snd (handleTransactionApproval "tx_1000" false (state txPendingWorld))
     = Return successObject.
Proof.
  assert (Hq : pendingRequests (state txPendingWorld) !! "tx_1000" = Some txRequest)
    by (vm_compute; reflexivity).
  assert (Hp : approvalResolvers (state txPendingWorld) !! "tx_1000" = Some 0%nat)
    by (vm_compute; reflexivity).
  split; [exact Hq|]. split; [exact Hp|].
  exact (proj1 (proj2 (rejection_rejects_waiter "tx_1000" txRequest 0%nat
                         (state txPendingWorld) Hq Hp))).
Defined.

(** X17.  A connection approval whose collaborator fails leaves the
    request undecided: if [addConnectedSite] or, after it has succeeded,
    [getCurrentWallet] rejects, the handler rethrows that error and
    touches neither the waiter nor the pending request, so the caller
    stays suspended (unlike a failing transaction submission, which is
    turned into a rejection of the waiter). *)
Theorem connection_approval_collaborator_failure
  (requestId : string) (request : DAppRequest) (st : State) :
  pendingRequests st !! requestId = Some request ->
  (forall e st1,
     resume (snd (handleConnectionApproval requestId true st)) (Rejected e) st1
     = (st1, Throw e))
  /\ (forall v e st1 st2,
        resume (snd (resume (snd (handleConnectionApproval requestId true st))
                       (Fulfilled v) st1))
          (Rejected e) st2
        = (st2, Throw e)).
Proof.
  intros Hreq. unfold handleConnectionApproval. rewrite Hreq. simpl. split; reflexivity.
Qed.

Lemma connection_approval_collaborator_failure_witness :
  pendingRequests (state connectPendingWorld) !! "connect_1000" = Some connectRequest
  /\ forall e st1,
       resume (snd (handleConnectionApproval "connect_1000" true (state connectPendingWorld)))
         (Rejected e) st1
       = (st1, Throw e).
Proof.
  assert (Hq : pendingRequests (state connectPendingWorld) !! "connect_1000"
               = Some connectRequest) by (vm_compute; reflexivity).
  split; [exact Hq|].
  exact (proj1 (connection_approval_collaborator_failure "connect_1000" connectRequest
                  (state connectPendingWorld) Hq)).
Defined.

(** X18.  A decision is single-use.  For an id that is not pending, both
    approval handlers fail with [Error('Request not found')] whatever the
    decision, and change nothing; and once a rejection has been processed
    for an id, pending or not, any further decision of either kind for
    that id fails in this way. *)
Theorem decision_is_single_use (requestId : string) (approved : bool) (st : State) :
  (pendingRequests st !! requestId = None ->
   handleConnectionApproval requestId approved st
   = (st, Throw (ThrownError "Request not found"))
   /\ handleTransactionApproval requestId approved st
      = (st, Throw (ThrownError "Request not found")))
  /\ (let st' := fst (handleConnectionApproval requestId false st) in
      handleConnectionApproval requestId approved st'
      = (st', Throw (ThrownError "Request not found"))
      /\ handleTransactionApproval requestId approved st'
         = (st', Throw (ThrownError "Request not found")))
  /\ (let st' := fst (handleTransactionApproval requestId false st) in
      handleConnectionApproval requestId approved st'
      = (st', Throw (ThrownError "Request not found"))
      /\ handleTransactionApproval requestId approved st'
         = (st', Throw (ThrownError "Request not found"))).
Proof.
  assert (Hnone : forall s, pendingRequests s !! requestId = None ->
            handleConnectionApproval requestId approved s
            = (s, Throw (ThrownError "Request not found"))
            /\ handleTransactionApproval requestId approved s
               = (s, Throw (ThrownError "Request not found"))).
  { intros s H. unfold handleConnectionApproval, handleTransactionApproval.
    rewrite H. split; reflexivity. }
  split; [apply Hnone|]. split; apply Hnone.
  - unfold handleConnectionApproval.
    destruct (pendingRequests st !! requestId) eqn:E; simpl; [apply lookup_delete_eq | exact E].
  - unfold handleTransactionApproval.
    destruct (pendingRequests st !! requestId) eqn:E; simpl; [apply lookup_delete_eq | exact E].
Qed.

Lemma decision_is_single_use_witness :
  pendingRequests initialState !! "tx_1000" = None
  /\ handleTransactionApproval "tx_1000" true initialState
     = (initialState, Throw (ThrownError "Request not found")).
Proof.
  split; [reflexivity|].
  exact (proj2 (proj1 (decision_is_single_use "tx_1000" true initialState) eq_refl)).
Defined.

(** ** Dispatches that register nothing *)

(** X19.  A dispatch of any method other than [request_accounts] and
    [send_transaction] (the three queries and every unsupported method)
    leaves both registries as they are, in its first step and at each of
    its later resumptions, whatever the collaborators answer. *)
Theorem query_dispatch_keeps_registries
  (request : RPCRequest) (origin : string) (st : State)
  (pr : gmap string DAppRequest) (ar : gmap string PromiseId) :
  method request <> REQUEST_ACCOUNTS ->
  method request <> SEND_TRANSACTION ->
  pendingRequests (fst (dispatch request origin st)) = pendingRequests st
  /\ approvalResolvers (fst (dispatch request origin st)) = approvalResolvers st
  /\ keeps (registries_are pr ar) (snd (dispatch request origin st)).
Proof.
  intros H1 H2.
  assert (Hr : pendingRequests (resetSessionTimeout st) = pendingRequests st
               /\ approvalResolvers (resetSessionTimeout st) = approvalResolvers st).
  { unfold resetSessionTimeout. destruct (sessionTimeout st); split; reflexivity. }
  unfold dispatch.
  destruct (negb (isUnlocked st) && negb (is_GET_NETWORK (method request)));
    [repeat split; exact I|].
  destruct (method request) as [| | | | |name]; try congruence.
  - destruct (handleGetAccounts_keeps (registries_are pr ar) origin (resetSessionTimeout st))
      as [_ Hk].
    split; [apply Hr|]. split; [apply Hr | exact Hk].
  - destruct (handleGetBalance_keeps (registries_are pr ar) (params request)
                (resetSessionTimeout st)) as [_ Hk].
    split; [|split; [|exact Hk]]; unfold handleGetBalance;
      destruct (get_prop (params request) "address") as [a|]; try apply Hr;
      destruct (truthy a); apply Hr.
  - destruct (handleGetNetwork_keeps (registries_are pr ar) (resetSessionTimeout st))
      as [_ Hk].
    split; [apply Hr|]. split; [apply Hr | exact Hk].
  - split; [apply Hr|]. split; [apply Hr | exact I].
Qed.

Lemma query_dispatch_keeps_registries_witness :
  method (mkRPCRequest GET_ACCOUNTS JUndefined) <> REQUEST_ACCOUNTS
  /\ method (mkRPCRequest GET_ACCOUNTS JUndefined) <> SEND_TRANSACTION
  /\ pendingRequests
       (fst (dispatch (mkRPCRequest GET_ACCOUNTS JUndefined) "https://dapp.example"
               (state txPendingWorld)))
     = pendingRequests (state txPendingWorld).
Proof.
  split; [discriminate|]. split; [discriminate|].
  exact (proj1 (query_dispatch_keeps_registries (mkRPCRequest GET_ACCOUNTS JUndefined)
                  "https://dapp.example" (state txPendingWorld) ∅ ∅
                  ltac:(discriminate) ltac:(discriminate))).
Defined.

(** ** Request ids *)

(** X20.  The id a registration generates depends on the method and the
    clock reading only.  Two [send_transaction] registrations get the same
    id exactly when [Date.now()] reads the same millisecond at both, and
    so do two [request_accounts] registrations; a connection id and a
    transaction id never coincide. *)
Theorem registration_ids_coincide_iff
  (origin1 origin2 : string) (params1 params2 v1 v2 : JSValue) (st1 st2 s1 s2 : State) :
  (truthy v1 = true -> truthy v2 = true ->
   invalidTransactionParams params1 = Some false ->
   invalidTransactionParams params2 = Some false ->
   (awaits (snd (resume (snd (handleSendTransaction origin1 params1 st1)) (Fulfilled v1) s1))
    = awaits (snd (resume (snd (handleSendTransaction origin2 params2 st2)) (Fulfilled v2) s2))
    <-> clock s1 = clock s2))
  /\ (truthy v1 = false -> truthy v2 = false ->
      (awaits (snd (resume (snd (handleRequestAccounts origin1 st1)) (Fulfilled v1) s1))
       = awaits (snd (resume (snd (handleRequestAccounts origin2 st2)) (Fulfilled v2) s2))
       <-> clock s1 = clock s2))
  /\ (truthy v1 = false -> truthy v2 = true ->
      invalidTransactionParams params2 = Some false ->
      awaits (snd (resume (snd (handleRequestAccounts origin1 st1)) (Fulfilled v1) s1))
      <> awaits (snd (resume (snd (handleSendTransaction origin2 params2 st2))
                        (Fulfilled v2) s2))).
Proof.
  split; [|split].
  - intros H1 H2 Hp1 Hp2. simpl. rewrite H1, H2. simpl. rewrite Hp1, Hp2. simpl.
    split; [|intros ->; reflexivity].
    intros E. apply transaction_id_inj. congruence.
  - intros H1 H2. simpl. rewrite H1, H2. simpl.
    split; [|intros ->; reflexivity].
    intros E. apply connection_id_inj. congruence.
  - intros H1 H2 Hp2. simpl. rewrite H1, H2. simpl. rewrite Hp2. simpl.
    intros E. apply (connection_id_not_transaction_id (clock s1) (clock s2)). congruence.
Qed.

Lemma registration_ids_coincide_iff_witness :
  truthy (JBool true) = true
  /\ invalidTransactionParams validTx = Some false
  /\ invalidTransactionParams otherTx = Some false
  /\ (awaits (snd (resume (snd (handleSendTransaction "https://dapp.example" validTx
                                  unlockedState))
                     (Fulfilled (JBool true)) (set_clock 1000 unlockedState)))
      = awaits (snd (resume (snd (handleSendTransaction "https://other.example" otherTx
                                    unlockedState))
                       (Fulfilled (JBool true)) (set_clock 1000 unlockedState)))
      <-> clock (set_clock 1000 unlockedState) = clock (set_clock 1000 unlockedState)).
Proof.
  split; [reflexivity|]. split; [reflexivity|]. split; [reflexivity|].
  exact (proj1 (registration_ids_coincide_iff "https://dapp.example" "https://other.example"
                  validTx otherTx (JBool true) (JBool true) unlockedState unlockedState
                  (set_clock 1000 unlockedState) (set_clock 1000 unlockedState))
           eq_refl eq_refl eq_refl eq_refl).
Defined.

(** ** Delivery to the suspended caller *)

Lemma settle_count_zero_unsettled (p : PromiseId) (l : list (PromiseId * Outcome)) :
  length (filter (fun x => x.1 = p) l) = 0%nat -> settlement_of p l = None.
Proof.
  induction l as [|[q o] l IH]; [reflexivity|].
  rewrite filter_cons. simpl. destruct (decide (q = p)) as [->|Hne]; [discriminate|].
  intros Hc. apply Nat.eqb_neq in Hne. rewrite Hne. apply IH, Hc.
Qed.

Lemma settlement_of_first (p : PromiseId) (o : Outcome) (l : list (PromiseId * Outcome)) :
  settlement_of p l = None -> settlement_of p (l ++ [(p, o)]) = Some o.
Proof.
  induction l as [|[q o'] l IH]; simpl.
  - intros _. rewrite Nat.eqb_refl. reflexivity.
  - destruct (Nat.eqb q p); [discriminate | exact IH].
Qed.

Lemma wake_tasks_delivers (c : TaskId) (p : PromiseId) (o : Outcome)
  (done : list (PromiseId * Outcome)) (ts : list (TaskId * Async)) :
  settlement_of p done = Some o ->
  (c, ReturnPromise p) ∈ ts ->
  (c, o) ∈ (wake_tasks done ts).2 /\ (c, ReturnPromise p) ∉ (wake_tasks done ts).1.
Proof.
  intros Hs. induction ts as [|[c' a] ts IH]; intros Hin.
  - apply elem_of_nil in Hin. contradiction.
  - simpl. destruct (wake_tasks done ts) as [keep out] eqn:E. simpl in IH.
    assert (Hnot : (c, ReturnPromise p) ∉ keep).
    { clear IH Hin. revert keep out E.
      induction ts as [|[c2 a2] ts IH2]; intros keep out E; simpl in E.
      - injection E as <- <-. apply not_elem_of_nil.
      - destruct (wake_tasks done ts) as [keep' out'].
        specialize (IH2 keep' out' eq_refl).
        destruct a2 as [v|e|q|c0 k];
          try (injection E as <- <-; intros H; apply elem_of_cons in H as [H | H];
               [discriminate H | exact (IH2 H)]).
        destruct (settlement_of q done) eqn:Eq; injection E as <- <-; [exact IH2|].
        intros H; apply elem_of_cons in H as [H | H]; [|exact (IH2 H)].
        injection H as -> ->. congruence. }
    apply elem_of_cons in Hin as [Hin | Hin].
    + injection Hin as <- <-. rewrite Hs. simpl. split; [left | exact Hnot].
    + destruct (IH Hin) as [IH1 _].
      destruct a as [v|e|q|c0 k]; simpl; try (split; [exact IH1|]);
        try (intros H; apply elem_of_cons in H as [H | H]; [discriminate H | exact (Hnot H)]).
      destruct (settlement_of q done) eqn:Eq; simpl.
      * split; [right; exact IH1 | exact Hnot].
      * split; [exact IH1|].
        intros H; apply elem_of_cons in H as [H | H]; [|exact (Hnot H)].
        injection H as -> ->. congruence.
Qed.

Lemma settled_caller_is_answered (w : World) (c : TaskId) (p : PromiseId) (o : Outcome) :
  settlement_of p (settlements (state w)) = Some o ->
  (c, ReturnPromise p) ∈ tasks w ->
  (c, o) ∈ responses (wake w) /\ (c, ReturnPromise p) ∉ tasks (wake w).
Proof.
  intros Hs Hc. unfold wake.
  pose proof (wake_tasks_delivers c p o _ (tasks w) Hs Hc) as [H1 H2].
  destruct (wake_tasks (settlements (state w)) (tasks w)) as [keep out]. simpl in *.
  split; [apply elem_of_app; right; exact H1 | exact H2].
Qed.

Lemma take_task_elem (a : TaskId) (x : Async) (ts rest : list (TaskId * Async))
  (y : TaskId * Async) :
  take_task a ts = Some (x, rest) ->
  (y ∈ ts -> y = (a, x) \/ y ∈ rest) /\ (y ∈ rest -> y ∈ ts).
Proof.
  revert x rest. induction ts as [|[c' a'] ts IH]; intros x rest; simpl; [discriminate|].
  destruct (Nat.eqb_spec c' a) as [->|Hne].
  - intros [= <- <-]. split.
    + intros H. apply elem_of_cons in H as [H | H]; [left; exact H | right; exact H].
    + intros H. right. exact H.
  - destruct (take_task a ts) as [[x0 rest0]|]; [|discriminate].
    intros [= <- <-]. destruct (IH x0 rest0 eq_refl) as [H1 H2]. split.
    + intros H. apply elem_of_cons in H as [H | H];
        [right; apply elem_of_cons; left; exact H|].
      destruct (H1 H) as [E | E]; [left; exact E | right; right; exact E].
    + intros H. apply elem_of_cons. apply elem_of_cons in H as [H | H];
        [left; exact H | right; auto].
Qed.

Lemma wake_tasks_sublist (done : list (PromiseId * Outcome)) (ts : list (TaskId * Async))
  (y : TaskId * Async) :
  y ∈ (wake_tasks done ts).1 -> y ∈ ts.
Proof.
  induction ts as [|[c a] ts IH]; simpl; [auto|].
  destruct (wake_tasks done ts) as [keep out]. simpl in IH.
  destruct a as [v|e|q|c0 k]; simpl;
    try (intros H; apply elem_of_cons; apply elem_of_cons in H as [H | H];
         [left; exact H | right; auto]).
  destruct (settlement_of q done); simpl.
  - intros H. right. auto.
  - intros H. apply elem_of_cons. apply elem_of_cons in H as [H | H];
      [left; exact H | right; auto].
Qed.

Lemma wake_tasks_keeps_await (done : list (PromiseId * Outcome)) (ts : list (TaskId * Async))
  (t : TaskId) (c : ExtCall) (k : Outcome -> State -> State * Async) :
  (t, Await c k) ∈ ts -> (t, Await c k) ∈ (wake_tasks done ts).1.
Proof.
  induction ts as [|[c' a] ts IH]; intros H.
  - apply elem_of_nil in H. contradiction.
  - simpl. destruct (wake_tasks done ts) as [keep out]. simpl in IH.
    apply elem_of_cons in H as [H | H].
    + injection H as <- <-. left.
    + destruct a as [v|e|q|c0 k0]; simpl; try (right; auto).
      destruct (settlement_of q done); simpl; [auto | right; auto].
Qed.

(** C7.  Approving a pending transaction suspends the approval's handler on
    [walletManager.sendTransaction(request.params)].  In every world the
    worker can reach, when that call fails with an [error] whose [message]
    can be read while a caller is suspended on the waiter registered under
    the id, the caller is answered with the rejection
    [{code: DISCONNECTED, message: error.message}]; the approval's handler
    is answered with [{success: true}] (it does not rethrow [error]) and is
    not suspended again (no second submission); the pending request and the
    waiter are gone from their registries. *)
Theorem transaction_approval_submit_failure
  (es : list Event) (a c : TaskId) (requestId : string) (request : DAppRequest)
  (p : PromiseId) (st0 : State) (rest : list (TaskId * Async))
  (error : Thrown) (msg : JSValue) :
  pendingRequests st0 !! requestId = Some request ->
  take_task a (tasks (run es initialWorld))
  = Some (snd (handleTransactionApproval requestId true st0), rest) ->
  (c, ReturnPromise p) ∈ tasks (run es initialWorld) ->
  approvalResolvers (state (run es initialWorld)) !! requestId = Some p ->
  error_message error = Some msg ->
  (forall (w0 : World) (sender : MessageSender),
     pendingRequests (state w0) !! requestId = Some request ->
     state (step w0 (Message (TRANSACTION_APPROVED requestId) sender)) = state w0
     /\ awaits (snd (handleTransactionApproval requestId true (state w0)))
        = Some (walletManager_sendTransaction (req_params request))
     /\ (nextTask w0, snd (handleTransactionApproval requestId true (state w0)))
          ∈ tasks (step w0 (Message (TRANSACTION_APPROVED requestId) sender)))
  /\ (let w' := step (run es initialWorld) (Completes a (Rejected error)) in
      ((c, Rejected (ThrownRPC (mkRPCError DISCONNECTED msg))) ∈ responses w')
      /\ rejection_class (Rejected (ThrownRPC (mkRPCError DISCONNECTED msg)))
         = Some Disconnected
      /\ ((c, ReturnPromise p) ∉ tasks w')
      /\ ((a, Fulfilled successObject) ∈ responses w')
      /\ (forall x, x ∈ tasks w' -> x ∈ rest)
      /\ settlements (state w')
         = settlements (state (run es initialWorld))
           ++ [(p, Rejected (ThrownRPC (mkRPCError DISCONNECTED msg)))]
      /\ pendingRequests (state w') !! requestId = None
      /\ approvalResolvers (state w') !! requestId = None).
Proof.
  intros Hreq Htask Hc Hp Hmsg. split.
  - intros w0 sender Hq. simpl.
    unfold handleTransactionApproval. rewrite Hq. simpl.
    split; [rewrite wake_state; reflexivity|]. split; [reflexivity|].
    unfold wake. simpl.
    lazymatch goal with
    | |- context [wake_tasks ?D (?T ++ [(?t, Await ?c0 ?k)])] =>
        pose proof (wake_tasks_keeps_await D (T ++ [(t, Await c0 k)]) t c0 k) as Hk;
        destruct (wake_tasks D (T ++ [(t, Await c0 k)])) as [keep out]
    end.
    simpl in *. apply Hk. apply elem_of_app. right. left.
  - set (w := run es initialWorld) in *.
    pose proof (wi_unsettled _ (reachable_waiter_invariant es) _ _ Hp) as Hu.
    fold w in Hu. apply settle_count_zero_unsettled in Hu.
    assert (Hrest : (c, ReturnPromise p) ∈ rest).
    { destruct (take_task_elem a _ _ rest (c, ReturnPromise p) Htask) as [H1 _].
      destruct (H1 Hc) as [E | E]; [|exact E].
      unfold handleTransactionApproval in E. rewrite Hreq in E. discriminate E. }
    simpl. rewrite Htask.
    unfold handleTransactionApproval. rewrite Hreq. simpl. rewrite Hmsg.
    unfold rejectApproval. rewrite Hp. simpl.
    lazymatch goal with
    | |- context [wake ?W] =>
        destruct (settled_caller_is_answered W c p
                    (Rejected (ThrownRPC (mkRPCError DISCONNECTED msg))))
          as [H1 H2];
        [simpl; apply settlement_of_first; exact Hu | exact Hrest |];
        pose proof (wake_state W) as Hst;
        assert (Hresp : (a, Fulfilled successObject) ∈ responses (wake W))
          by (unfold wake; simpl; destruct (wake_tasks _ rest) as [keep out]; simpl;
              apply elem_of_app; left; apply elem_of_app; right; left);
        assert (Hsub : forall x, x ∈ tasks (wake W) -> x ∈ rest)
          by (intros x; unfold wake; simpl;
              pose proof (wake_tasks_sublist (settlements (state W)) rest x) as Hs;
              simpl in Hs; destruct (wake_tasks _ rest) as [keep out]; exact Hs)
    end.
    split; [exact H1|]. split; [reflexivity|]. split; [exact H2|].
    split; [exact Hresp|]. split; [exact Hsub|].
    rewrite Hst. simpl. repeat split; apply lookup_delete_eq.
Qed.

Lemma transaction_approval_submit_failure_witness :
  pendingRequests (state (run txPendingEvents initialWorld)) !! "tx_1000" = Some txRequest
  /\ take_task 2%nat (tasks (run txApprovedEvents initialWorld))
     = Some (snd (handleTransactionApproval "tx_1000" true
                    (state (run txPendingEvents initialWorld))),
             [(1%nat, ReturnPromise 0%nat)])
  /\ (1%nat, ReturnPromise 0%nat) ∈ tasks (run txApprovedEvents initialWorld)
  /\ approvalResolvers (state (run txApprovedEvents initialWorld)) !! "tx_1000" = Some 0%nat
  /\ error_message (ThrownError "insufficient funds") = Some (JString "insufficient funds")
  /\ (1%nat, Rejected (ThrownRPC (mkRPCError DISCONNECTED "insufficient funds")))
       ∈ responses (step (run txApprovedEvents initialWorld)
                      (Completes 2 (Rejected (ThrownError "insufficient funds")))).
Proof.
  assert (Hq : pendingRequests (state (run txPendingEvents initialWorld)) !! "tx_1000"
               = Some txRequest) by (vm_compute; reflexivity).
  assert (Ht : take_task 2%nat (tasks (run txApprovedEvents initialWorld))
               = Some (snd (handleTransactionApproval "tx_1000" true
                              (state (run txPendingEvents initialWorld))),
                       [(1%nat, ReturnPromise 0%nat)])) by (vm_compute; reflexivity).
  assert (Hc : (1%nat, ReturnPromise 0%nat) ∈ tasks (run txApprovedEvents initialWorld)).
  { assert (E : (1%nat, ReturnPromise 0%nat)
                ∈ [(1%nat, ReturnPromise 0%nat)]) by left.
    destruct (take_task_elem 2%nat _ _ _ (1%nat, ReturnPromise 0%nat) Ht) as [_ H].
    exact (H E). }
  assert (Hp : approvalResolvers (state (run txApprovedEvents initialWorld)) !! "tx_1000"
               = Some 0%nat) by (vm_compute; reflexivity).
  split; [exact Hq|]. split; [exact Ht|]. split; [exact Hc|]. split; [exact Hp|].
  split; [reflexivity|].
  exact (proj1 (proj2 (transaction_approval_submit_failure txApprovedEvents 2%nat 1%nat
                         "tx_1000" txRequest 0%nat
                         (state (run txPendingEvents initialWorld))
                         [(1%nat, ReturnPromise 0%nat)]
                         (ThrownError "insufficient funds") (JString "insufficient funds")
                         Hq Ht Hc Hp eq_refl))).
Defined.

(** A rejection the [catch] cannot read a message from ([null] or
    [undefined]) makes the [catch] itself throw: the handler fails with a
    [TypeError] on an unchanged state, before [rejectApproval] and
    [pendingRequests.delete] are reached. *)
Lemma submit_failure_without_message
  (requestId : string) (request : DAppRequest) (error : Thrown) (st st1 : State) :
  pendingRequests st !! requestId = Some request ->
  error_message error = None ->
  exists msg,
    resume (snd (handleTransactionApproval requestId true st)) (Rejected error) st1
    = (st1, Throw (ThrownTypeError msg)).
Proof.
  intros Hreq Hmsg. unfold handleTransactionApproval. rewrite Hreq. simpl. rewrite Hmsg.
  eexists. reflexivity.
Qed.

(** On the event loop: [sendTransaction] rejecting with [null] after the
    approval of [tx_1000] leaves the caller suspended, the waiter
    registered and the request pending; the approval's handler fails. *)
Example submit_failure_null_run :
  let w := step (run txApprovedEvents initialWorld)
             (Completes 2 (Rejected (ThrownValue JNull))) in
  tasks w = [(1%nat, ReturnPromise 0%nat)]
  /\ approvalResolvers (state w) !! "tx_1000" = Some 0%nat
  /\ pendingRequests (state w) !! "tx_1000" = Some txRequest
  /\ exists msg, (2%nat, Rejected (ThrownTypeError msg)) ∈ responses w.
Proof.
  vm_compute. split; [reflexivity|]. split; [reflexivity|]. split; [reflexivity|].
  eexists. apply list_elem_of_In. right. left. reflexivity.
Qed.

(** X21.  A rejection reaches the suspended caller.  In every reachable
    world, if a handler is suspended on the approval promise registered
    under a pending id, then processing a rejection message for that id
    answers that handler with the [USER_REJECTED] error of the message's
    kind, and the handler is no longer waiting. *)
Theorem rejection_reaches_caller
  (es : list Event) (c : TaskId) (requestId : string) (p : PromiseId) (sender : MessageSender) :
  (c, ReturnPromise p) ∈ tasks (run es initialWorld) ->
  approvalResolvers (state (run es initialWorld)) !! requestId = Some p ->
  is_Some (pendingRequests (state (run es initialWorld)) !! requestId) ->
  (let w' := step (run es initialWorld) (Message (TRANSACTION_REJECTED requestId) sender) in
   (c, Rejected (ThrownRPC (mkRPCError USER_REJECTED "User rejected transaction")))
     ∈ responses w'
   /\ (c, ReturnPromise p) ∉ tasks w')
  /\ (let w' := step (run es initialWorld) (Message (CONNECTION_REJECTED requestId) sender) in
      (c, Rejected (ThrownRPC (mkRPCError USER_REJECTED "User rejected connection")))
        ∈ responses w'
      /\ (c, ReturnPromise p) ∉ tasks w').
Proof.
  intros Hc Hp [request Hq].
  set (w := run es initialWorld) in *.
  pose proof (wi_unsettled _ (reachable_waiter_invariant es) _ _ Hp) as Hu.
  fold w in Hu. apply settle_count_zero_unsettled in Hu.
  split; simpl.
  - unfold handleTransactionApproval, rejectApproval. rewrite Hq, Hp. simpl.
    apply settled_caller_is_answered; simpl;
      [apply settlement_of_first; exact Hu | exact Hc].
  - unfold handleConnectionApproval, rejectApproval. rewrite Hq, Hp. simpl.
    apply settled_caller_is_answered; simpl;
      [apply settlement_of_first; exact Hu | exact Hc].
Qed.

Lemma rejection_reaches_caller_witness :
  (1%nat, ReturnPromise 0%nat) ∈ tasks (run txPendingEvents initialWorld)
  /\ approvalResolvers (state (run txPendingEvents initialWorld)) !! "tx_1000" = Some 0%nat
  /\ is_Some (pendingRequests (state (run txPendingEvents initialWorld)) !! "tx_1000")
  /\ (1%nat, Rejected (ThrownRPC (mkRPCError USER_REJECTED "User rejected transaction")))
       ∈ responses (step (run txPendingEvents initialWorld)
                      (Message (TRANSACTION_REJECTED "tx_1000") dapp)).
Proof.
  assert (Hc : (1%nat, ReturnPromise 0%nat) ∈ tasks (run txPendingEvents initialWorld)).
  { assert (E : tasks (run txPendingEvents initialWorld) = [(1%nat, ReturnPromise 0%nat)])
      by (vm_compute; reflexivity).
    rewrite E. left. }
  assert (Hp : approvalResolvers (state (run txPendingEvents initialWorld)) !! "tx_1000"
               = Some 0%nat) by (vm_compute; reflexivity).
  assert (Hq : is_Some (pendingRequests (state (run txPendingEvents initialWorld))
                          !! "tx_1000"))
    by (exists txRequest; vm_compute; reflexivity).
  split; [exact Hc|]. split; [exact Hp|]. split; [exact Hq|].
  exact (proj1 (proj1 (rejection_reaches_caller txPendingEvents 1%nat "tx_1000" 0%nat dapp
                         Hc Hp Hq))).
Defined.

(** X22.  The timeout reaches the suspended caller.  In every reachable
    world, if a handler is suspended on the approval promise registered
    under an id and that promise's timer is due, then the timer firing
    answers the handler with [{USER_REJECTED, 'Request timeout'}], and the
    handler is no longer waiting. *)
Theorem timeout_reaches_caller
  (es : list Event) (c : TaskId) (requestId : string) (p : PromiseId) (t : TimerId) (d : Z) :
  (c, ReturnPromise p) ∈ tasks (run es initialWorld) ->
  approvalResolvers (state (run es initialWorld)) !! requestId = Some p ->
  timers (state (run es initialWorld)) !! t = Some (mkTimer d (ApprovalTimeoutCb requestId p)) ->
  d <= clock (state (run es initialWorld)) ->
  let w' := step (run es initialWorld) (TimerFires t) in
  ((c, Rejected (ThrownRPC (mkRPCError USER_REJECTED "Request timeout"))) ∈ responses w')
  /\ ((c, ReturnPromise p) ∉ tasks w')
  /\ (approvalResolvers (state w') !! requestId = None).
Proof.
  intros Hc Hp Ht Hd.
  set (w := run es initialWorld) in *.
  pose proof (wi_unsettled _ (reachable_waiter_invariant es) _ _ Hp) as Hu.
  fold w in Hu. apply settle_count_zero_unsettled in Hu.
  simpl. rewrite Ht. simpl.
  destruct (Z.leb_spec d (clock (state w))) as [_|Hlt]; [|lia].
  unfold approvalTimeout. simpl. rewrite Hp. simpl.
  lazymatch goal with
  | |- context [wake ?W] =>
      destruct (settled_caller_is_answered W c p
                  (Rejected (ThrownRPC (mkRPCError USER_REJECTED "Request timeout"))))
        as [H1 H2];
      [simpl; apply settlement_of_first; exact Hu | exact Hc |]
  end.
  split; [exact H1|]. split; [exact H2|].
  rewrite wake_state. simpl. apply lookup_delete_eq.
Qed.

Lemma timeout_reaches_caller_witness :
  let es := txPendingEvents ++ [Elapse 300000] in
  (1%nat, ReturnPromise 0%nat) ∈ tasks (run es initialWorld)
  /\ approvalResolvers (state (run es initialWorld)) !! "tx_1000" = Some 0%nat
  /\ timers (state (run es initialWorld)) !! 3%positive
     = Some (mkTimer 301000 (ApprovalTimeoutCb "tx_1000" 0%nat))
  /\ 301000 <= clock (state (run es initialWorld))
  /\ (1%nat, Rejected (ThrownRPC (mkRPCError USER_REJECTED "Request timeout")))
       ∈ responses (step (run es initialWorld) (TimerFires 3)).
Proof.
  intros es.
  assert (Hc : (1%nat, ReturnPromise 0%nat) ∈ tasks (run es initialWorld)).
  { assert (E : tasks (run es initialWorld) = [(1%nat, ReturnPromise 0%nat)])
      by (vm_compute; reflexivity).
    rewrite E. left. }
  assert (Hp : approvalResolvers (state (run es initialWorld)) !! "tx_1000" = Some 0%nat)
    by (vm_compute; reflexivity).
  assert (Ht : timers (state (run es initialWorld)) !! 3%positive
               = Some (mkTimer 301000 (ApprovalTimeoutCb "tx_1000" 0%nat)))
    by (vm_compute; reflexivity).
  assert (Hd : 301000 <= clock (state (run es initialWorld))) by (vm_compute; discriminate).
  split; [exact Hc|]. split; [exact Hp|]. split; [exact Ht|]. split; [exact Hd|].
  exact (proj1 (timeout_reaches_caller es 1%nat "tx_1000" 0%nat 3%positive 301000
                  Hc Hp Ht Hd)).
Defined.

(** ** The approval channel and the session lock *)

Lemma settleApproval_set_isUnlocked (requestId : string) (o : Outcome) (b : bool) (st : State) :
  settleApproval requestId o (set_isUnlocked b st)
  = set_isUnlocked b (settleApproval requestId o st).
Proof.
  unfold settleApproval. simpl. destruct (approvalResolvers st !! requestId); reflexivity.
Qed.

(** X23.  The approval channel is not gated by the session lock: neither
    approval handler reads [isUnlocked], in its first step or at any later
    resumption.  Whatever the flag is, the handler looks up the same
    request, calls the same collaborators and makes the same changes to
    the registries; in particular an approval processed in a locked
    session still submits the transaction. *)
Theorem approval_channel_ignores_lock (requestId : string) (approved b : bool) (st : State) :
  (fst (handleConnectionApproval requestId approved (set_isUnlocked b st))
   = set_isUnlocked b (fst (handleConnectionApproval requestId approved st))
   /\ snd (handleConnectionApproval requestId approved (set_isUnlocked b st))
      = snd (handleConnectionApproval requestId approved st)
   /\ lock_blind (snd (handleConnectionApproval requestId approved st)))
  /\ (fst (handleTransactionApproval requestId approved (set_isUnlocked b st))
      = set_isUnlocked b (fst (handleTransactionApproval requestId approved st))
      /\ snd (handleTransactionApproval requestId approved (set_isUnlocked b st))
         = snd (handleTransactionApproval requestId approved st)
      /\ lock_blind (snd (handleTransactionApproval requestId approved st))).
Proof.
  split.
  - unfold handleConnectionApproval. simpl.
    destruct (pendingRequests st !! requestId) as [request|]; [|repeat split].
    destruct approved.
    + split; [reflexivity|]. split; [reflexivity|]. simpl.
      intros r st1 b1. destruct r; [|repeat split].
      split; [reflexivity|]. split; [reflexivity|]. simpl.
      intros r st2 b2. destruct r; [|repeat split]. simpl.
      rewrite !resolveApproval_settleApproval, settleApproval_set_isUnlocked.
      repeat split.
    + rewrite !rejectApproval_settleApproval, settleApproval_set_isUnlocked. repeat split.
  - unfold handleTransactionApproval. simpl.
    destruct (pendingRequests st !! requestId) as [request|]; [|repeat split].
    destruct approved.
    + split; [reflexivity|]. split; [reflexivity|]. simpl.
      intros r st1 b1. destruct r as [v|e]; simpl.
      * rewrite !resolveApproval_settleApproval, settleApproval_set_isUnlocked. repeat split.
      * destruct (error_message e); [|repeat split].
        rewrite !rejectApproval_settleApproval, settleApproval_set_isUnlocked. repeat split.
    + rewrite !rejectApproval_settleApproval, settleApproval_set_isUnlocked. repeat split.
Qed.
